(** * Battery dataset normalisation: feature mapper and dataset loader

    A shallow embedding of [src/battery_feature_mapper.py] and
    [data_loader.py].  Python dictionaries are insertion-ordered association
    lists, Python sets are [gset]s, data frames live in a store of objects
    addressed by references, and exceptions and printed diagnostics are
    explicit in the monad the methods run in. *)

From Stdlib Require Import ZArith Ascii String.
From stdpp Require Import base option list strings gmap sorting.

Local Open Scope string_scope.
Local Open Scope list_scope.

(** ** Python strings (ASCII range) *)

Module PyStr.

(** [str.lower] on one character. *)
Definition ascii_lower (c : ascii) : ascii :=
  let n := N_of_ascii c in
  if ((65 <=? n) && (n <=? 90))%N then ascii_of_N (n + 32) else c.

(** [s.lower()]. *)
Fixpoint lower (s : string) : string :=
  match s with
  | EmptyString => EmptyString
  | String c s' => String (ascii_lower c) (lower s')
  end.

(** [s.startswith(p)]. *)
Fixpoint startswith (p s : string) : bool :=
  match p, s with
  | EmptyString, _ => true
  | String _ _, EmptyString => false
  | String a p', String b s' => bool_decide (a = b) && startswith p' s'
  end.

(** [p in s]. *)
Fixpoint contains (p s : string) : bool :=
  startswith p s ||
  match s with
  | EmptyString => false
  | String _ s' => contains p s'
  end.

(** [p.lower() in s.lower()]: [p] occurs in [s] up to letter case. *)
Definition icontains (p s : string) : bool := contains (lower p) (lower s).

Fixpoint forallb_str (f : ascii -> bool) (s : string) : bool :=
  match s with
  | EmptyString => true
  | String c s' => f c && forallb_str f s'
  end.

Definition is_ascii (s : string) : bool :=
  forallb_str (fun c => (N_of_ascii c <? 128)%N) s.

End PyStr.

(** ** Python dictionaries, in insertion order *)

Abbreviation dict V := (list (string * V)).

Module PyDict.
Section Dict.
Context {V : Type}.

(** [d.get(k)]. *)
Fixpoint dict_get (k : string) (d : dict V) : option V :=
  match d with
  | [] => None
  | (k', v) :: d' => if decide (k = k') then Some v else dict_get k d'
  end.

(** [k in d]. *)
Definition dict_mem (k : string) (d : dict V) : bool :=
  match dict_get k d with Some _ => true | None => false end.

(** [d[k] = v]: an existing key keeps its position, a new key goes last. *)
Fixpoint dict_set (k : string) (v : V) (d : dict V) : dict V :=
  match d with
  | [] => [(k, v)]
  | (k', v') :: d' =>
      if decide (k = k') then (k, v) :: d' else (k', v') :: dict_set k v d'
  end.

(** [list(d.keys())] and [list(d.values())]. *)
Definition keys (d : dict V) : list string := d.*1.
Definition values (d : dict V) : list V := d.*2.

(** What every Python dictionary satisfies: a key occurs once. *)
Definition dict_wf (d : dict V) : Prop := NoDup (keys d).
End Dict.
End PyDict.
Import PyDict.

(** ** Exceptions *)

Inductive exn : Type :=
  | re_error (pattern : string)   (* [re.compile] rejected the pattern *)
  | ValueError (msg : string)
  | KeyError (key : string)
  | FileNotFoundError (path : string)
  | ReferenceError (r : positive). (* a reference to no object: not Python's *)

Inductive result (A : Type) : Type :=
  | Ok (a : A)
  | Raise (e : exn).
Arguments Ok {A} a.
Arguments Raise {A} e.

Definition result_bind {A B} (r : result A) (k : A -> result B) : result B :=
  match r with
  | Ok a => k a
  | Raise e => Raise e
  end.

(** ** The [re] module, as far as the mapper uses it

    [re_compile p] is [re.compile(p, re.IGNORECASE)], [None] when it raises
    [re.error]; [re_search r s] tells whether [r.search(s)] finds a match. *)

Class Re : Type := {
  Pattern : Type;
  re_compile : string -> option Pattern;
  re_search : Pattern -> string -> bool
}.

Module ReLiteral.
Import PyStr.

(** The characters [re] gives a meaning to; a pattern without them denotes
    itself. *)
Definition metachar (c : ascii) : bool :=
  bool_decide (c ∈ list_ascii_of_string ".^$*+?{}[]\|()").

Definition literal (p : string) : bool :=
  forallb_str (fun c => negb (metachar c) && (N_of_ascii c <? 128)%N) p.

(** The engine on literal patterns: they compile, and with [IGNORECASE]
    they are found exactly where they occur up to letter case.  Patterns
    with metacharacters are outside this fragment and are turned down. *)
Definition literal_re : Re := {|
  Pattern := string;
  re_compile p := if literal p then Some p else None;
  re_search p s := icontains p s
|}.

(** Every pattern of a registry is literal, every column name is ASCII. *)
Definition literal_patterns (specs : dict (list string)) : bool :=
  forallb (fun item => forallb literal item.2) specs.

Definition ascii_columns (columns : list string) : bool :=
  forallb is_ascii columns.

(** An engine is right on literals when it agrees with [literal_re] there. *)
Definition re_literal_law (E : Re) : Prop :=
  forall p, literal p = true ->
    exists r, @re_compile E p = Some r /\
      forall s, is_ascii s = true -> @re_search E r s = icontains p s.
End ReLiteral.

(** ** [battery_feature_mapper.py]: the matcher *)

Module battery_feature_mapper.

Record BatteryFeatureMapper : Type := {
  feature_patterns : dict (list string);
  standard_features : list string
}.

(** [BatteryFeatureMapper.__init__]. *)
Definition default_patterns : dict (list string) :=
  [ ("capacity",
      ["capacity"; "cap"; "q"; "charge_capacity"; "discharge_capacity";
       "nominal_capacity"; "ah"; "ampere_hour"; "mah"; "milliampere"]);
    ("voltage",
      ["voltage"; "volt"; "v"; "batt_voltage"; "cell_voltage";
       "terminal_voltage"; "v_batt"; "volts"; "voltage_v"]);
    ("current",
      ["current"; "curr"; "i"; "batt_current"; "cell_current";
       "discharge_current"; "charge_current"; "amps"; "amperes";
       "current_a"; "ampere"]);
    ("temperature",
      ["temperature"; "temp"; "tmp"; "batt_temp"; "cell_temp";
       "t_batt"; "thermal"; "deg"; "celsius"; "fahrenheit";
       "temp_c"; "temp_f"]);
    ("discharge_time",
      ["discharge_time"; "disch_time"; "t_discharge"; "t_disch";
       "discharge_duration"; "duration_discharge"; "disc_time";
       "time_discharge"]);
    ("charge_time",
      ["charge_time"; "chg_time"; "t_charge"; "t_chg";
       "charge_duration"; "duration_charge"; "ch_time";
       "time_charge"]) ].

Definition init : BatteryFeatureMapper := {|
  feature_patterns := default_patterns;
  standard_features := keys default_patterns
|}.

(** [add_custom_pattern]. *)
Definition add_custom_pattern (self : BatteryFeatureMapper)
    (feature_name : string) (patterns : list string) : BatteryFeatureMapper :=
  let feature_patterns' := dict_set feature_name patterns (feature_patterns self) in
  {| feature_patterns := feature_patterns';
     standard_features := keys feature_patterns' |}.

Section Matching.
Context {E : Re}.

(** The two locals of [find_matching_columns]. *)
Record locals : Type := {
  matches : dict string;
  used_columns : gset string
}.

(** [for col in df_columns: if ...: ...; break]. *)
Fixpoint for_col (regex : Pattern) (feature : string)
    (df_columns : list string) (st : locals) : locals :=
  match df_columns with
  | [] => st
  | col :: rest =>
      if re_search regex col
         && bool_decide (col ∉ used_columns st)
         && negb (dict_mem feature (matches st))
      then {| matches := dict_set feature col (matches st);
              used_columns := used_columns st ∪ {[col]} |}
      else for_col regex feature rest st
  end.

(** [for pattern in patterns: regex = re.compile(...); ...;
    if feature in matches: break]. *)
Fixpoint for_pattern (feature : string) (patterns : list string)
    (df_columns : list string) (st : locals) : result locals :=
  match patterns with
  | [] => Ok st
  | pattern :: rest =>
      match re_compile pattern with
      | None => Raise (re_error pattern)
      | Some regex =>
          let st' := for_col regex feature df_columns st in
          if dict_mem feature (matches st') then Ok st'
          else for_pattern feature rest df_columns st'
      end
  end.

(** [for feature, patterns in self.feature_patterns.items(): ...]. *)
Fixpoint for_feature (items : dict (list string))
    (df_columns : list string) (st : locals) : result locals :=
  match items with
  | [] => Ok st
  | (feature, patterns) :: rest =>
      result_bind (for_pattern feature patterns df_columns st)
        (for_feature rest df_columns)
  end.

Definition find_matching_columns (self : BatteryFeatureMapper)
    (df_columns : list string) : result (dict string) :=
  result_bind
    (for_feature (feature_patterns self) df_columns
       {| matches := []; used_columns := ∅ |})
    (fun st => Ok (matches st)).

(** [get_available_features]. *)
Definition get_available_features (self : BatteryFeatureMapper)
    (df_columns : list string) : result (gset string) :=
  result_bind (find_matching_columns self df_columns)
    (fun mapping => Ok (list_to_set (keys mapping))).

End Matching.
End battery_feature_mapper.
Import battery_feature_mapper.

(** ** The matcher as the specification words it

    Features in declaration order, each feature's patterns in declared order,
    the columns in the given order; the first column that contains a match of
    the pattern and is bound to no earlier feature is the feature's column,
    and a feature none of whose patterns finds a column is left out. *)

Module Spec.
Section Greedy.
Context {E : Re}.

(** The column contains a case-insensitive match of the pattern. *)
Definition contains_match (pattern col : string) : bool :=
  match re_compile pattern with
  | Some regex => re_search regex col
  | None => false
  end.

(** ... and no earlier feature is bound to it. *)
Definition eligible (bound : dict string) (pattern col : string) : bool :=
  contains_match pattern col && bool_decide (col ∉ values bound).

Definition first_column (bound : dict string) (pattern : string)
    (columns : list string) : option string :=
  List.find (eligible bound pattern) columns.

Fixpoint first_pattern (bound : dict string) (patterns : list string)
    (columns : list string) : option string :=
  match patterns with
  | [] => None
  | pattern :: rest =>
      match first_column bound pattern columns with
      | Some col => Some col
      | None => first_pattern bound rest columns
      end
  end.

Fixpoint greedy_from (specs : dict (list string)) (columns : list string)
    (bound : dict string) : dict string :=
  match specs with
  | [] => bound
  | (feature, patterns) :: rest =>
      greedy_from rest columns
        match first_pattern bound patterns columns with
        | Some col => bound ++ [(feature, col)]
        | None => bound
        end
  end.

Definition greedy_mapping (specs : dict (list string))
    (columns : list string) : dict string :=
  greedy_from specs columns [].

(** Every pattern of the registry is a regular expression. *)
Definition patterns_compile (specs : dict (list string)) : Prop :=
  Forall (fun item => Forall (fun pattern => is_Some (re_compile pattern)) item.2)
    specs.
End Greedy.
End Spec.

(** ** pandas, as far as the two classes use it

    A frame is its columns in order, a column its cells in row order, a
    missing cell [None].  Numeric cells are of an arbitrary type [num] with
    the two statistics [np_mean] and [np_median] on it, so nothing below
    depends on how floating-point numbers round. *)

Class Numeric : Type := {
  num : Type;
  np_mean : list num -> num;
  np_median : list num -> num
}.

(** An instance for the examples: integer cells, the mean rounded down, the
    upper median. *)
Definition Z_stats : Numeric := {|
  num := Z;
  np_mean xs := (foldr Z.add 0 xs / Z.of_nat (length xs))%Z;
  np_median xs := nth (length xs / 2) (merge_sort Z.le xs) 0%Z
|}.

Module pd.
Section Series.
Context {N : Numeric}.

Inductive Series : Type :=
  | Float64 (data : list (option num))
  | Object (data : list (option string)).

Definition notna {A} (cell : option A) : bool :=
  match cell with Some _ => true | None => false end.

Definition series_len (s : Series) : nat :=
  match s with Float64 d => length d | Object d => length d end.

Definition series_notna (s : Series) : list bool :=
  match s with Float64 d => notna <$> d | Object d => notna <$> d end.

(** Keep the cells whose row is marked. *)
Fixpoint keep_rows {A} (rows : list bool) (d : list A) : list A :=
  match rows, d with
  | true :: rows', x :: d' => x :: keep_rows rows' d'
  | false :: rows', _ :: d' => keep_rows rows' d'
  | _, _ => []
  end.

Definition series_keep (rows : list bool) (s : Series) : Series :=
  match s with
  | Float64 d => Float64 (keep_rows rows d)
  | Object d => Object (keep_rows rows d)
  end.

(** Fill a gap with the last cell seen before it. *)
Fixpoint ffill_from {A} (last : option A) (d : list (option A))
    : list (option A) :=
  match d with
  | [] => []
  | Some x :: d' => Some x :: ffill_from (Some x) d'
  | None :: d' => last :: ffill_from last d'
  end.

Definition ffill {A} (d : list (option A)) : list (option A) :=
  ffill_from None d.

Definition bfill {A} (d : list (option A)) : list (option A) :=
  reverse (ffill_from None (reverse d)).

Definition fill_with {A} (x : A) (d : list (option A)) : list (option A) :=
  (fun cell => match cell with Some y => Some y | None => Some x end) <$> d.

(** A statistic of a numeric column skips the missing cells and is
    missing itself when there is none left. *)
Definition column_stat (stat : list num -> num) (d : list (option num))
    : option num :=
  match omap id d with
  | [] => None
  | xs => Some (stat xs)
  end.

End Series.

(** A frame: labelled columns, in order.  The labels of a table are
    distinct ([dict_wf]). *)
Abbreviation DataFrame := (dict Series).

Section Frames.
Context {N : Numeric}.

(** [df.shape]. *)
Definition frame_shape (frame : DataFrame) : nat * nat :=
  (match frame with [] => 0 | (_, s) :: _ => series_len s end, length frame).

(** [df.isnull().sum().sum()]. *)
Definition frame_isnull_sum (frame : DataFrame) : nat :=
  sum_list ((fun item => length (filter (fun b => b = false) (series_notna item.2)))
              <$> frame).

(** [df.dropna()]: the rows without a missing cell. *)
Definition complete_rows (frame : DataFrame) : list bool :=
  foldr (fun item rows => zip_with andb (series_notna item.2) rows)
    (replicate (frame_shape frame).1 true) frame.

Definition frame_dropna (frame : DataFrame) : DataFrame :=
  let rows := complete_rows frame in
  (fun item => (item.1, series_keep rows item.2)) <$> frame.

(** [df.mean(numeric_only=True)], [df.median(numeric_only=True)]: one
    entry per numeric column. *)
Definition frame_stat (stat : list num -> num) (frame : DataFrame)
    : dict (option num) :=
  omap (fun item =>
          match item.2 with
          | Float64 d => Some (item.1, column_stat stat d)
          | Object _ => None
          end) frame.

(** [df.fillna(value)] with one fill value per column label. *)
Definition frame_fillna (value : dict (option num)) (frame : DataFrame)
    : DataFrame :=
  (fun item =>
     match item.2, dict_get item.1 value with
     | Float64 d, Some (Some x) => (item.1, Float64 (fill_with x d))
     | _, _ => item
     end) <$> frame.

(** [df.fillna(method='ffill')] and [df.fillna(method='bfill')]. *)
Definition series_fill (fill : forall A, list (option A) -> list (option A))
    (s : Series) : Series :=
  match s with
  | Float64 d => Float64 (fill _ d)
  | Object d => Object (fill _ d)
  end.

Definition frame_fill (fill : forall A, list (option A) -> list (option A))
    (frame : DataFrame) : DataFrame :=
  (fun item => (item.1, series_fill fill item.2)) <$> frame.

(** [df[col]]: the column of that label, or the frame of all the columns
    of that label when there are several. *)
Inductive selection : Type :=
  | column (s : Series)
  | subframe (columns : list Series).

Definition frame_getitem (col : string) (frame : DataFrame)
    : option selection :=
  match (filter (fun item => item.1 = col) frame).*2 with
  | [] => None
  | [s] => Some (column s)
  | columns => Some (subframe columns)
  end.
End Frames.
End pd.

(** ** The Python heap and the output stream *)

Definition ref : Type := positive.

(** The lines the two classes print. *)
Inductive line : Type :=
  | WarningColumnNotFound (actual_col : string)
  | MissingFeatures (missing_features : gset string)
  | WarningUnknownStrategy (strategy : string)
  | MissingValuesHandled (strategy : string)
  | Shapes (original after : nat * nat)
  | MissingValuesCount (before after : nat).

Section World.
Context {N : Numeric}.

Record world : Type := {
  heap : gmap ref pd.DataFrame;
  stdout : list line
}.

(** A method call: it may raise, and it leaves its effects either way. *)
Definition Py (A : Type) : Type := world -> result A * world.

Global Instance Py_ret : MRet Py := fun A a w => (Ok a, w).

Global Instance Py_bind : MBind Py := fun A B k m w =>
  match m w with
  | (Ok a, w') => k a w'
  | (Raise e, w') => (Raise e, w')
  end.

Definition raise {A} (e : exn) : Py A := fun w => (Raise e, w).

Definition lift {A} (r : result A) : Py A := fun w => (r, w).

Definition print (l : line) : Py unit := fun w =>
  (Ok (), {| heap := heap w; stdout := stdout w ++ [l] |}).

(** A new object, at a reference no object has yet. *)
Definition new (frame : pd.DataFrame) : Py ref := fun w =>
  let r := fresh (dom (heap w)) in
  (Ok r, {| heap := <[r := frame]> (heap w); stdout := stdout w |}).

(** The object behind a reference; Python has no reference to nothing. *)
Definition deref (df : ref) : Py pd.DataFrame := fun w =>
  match heap w !! df with
  | Some frame => (Ok frame, w)
  | None => (Raise (ReferenceError df), w)
  end.

Definition update (df : ref) (frame : pd.DataFrame) : Py unit := fun w =>
  (Ok (), {| heap := <[df := frame]> (heap w); stdout := stdout w |}).

(** [for x in xs: body(x)]. *)
Fixpoint for_each {A} (xs : list A) (body : A -> Py unit) : Py unit :=
  match xs with
  | [] => mret ()
  | x :: rest => body x ;; for_each rest body
  end.
End World.

(** pandas methods on references.  Those that return a frame return a new
    object and leave the receiver alone; [setitem] alone writes into its
    receiver. *)
Module pdm.
Section Methods.
Context {N : Numeric}.

(** [pd.DataFrame()]. *)
Definition DataFrame : Py ref := new [].

(** [df.columns.tolist()]. *)
Definition columns_tolist (df : ref) : Py (list string) :=
  frame ← deref df; mret (keys frame).

(** [col in df.columns]. *)
Definition in_columns (col : string) (df : ref) : Py bool :=
  frame ← deref df; mret (bool_decide (col ∈ keys frame)).

(** [df[col]]. *)
Definition getitem (df : ref) (col : string) : Py pd.selection :=
  frame ← deref df;
  match pd.frame_getitem col frame with
  | Some sel => mret sel
  | None => raise (KeyError col)
  end.

(** [df[key] = value]: a column is stored under the label; a frame of
    several columns cannot be stored under one label. *)
Definition setitem (df : ref) (key : string) (value : pd.selection)
    : Py unit :=
  frame ← deref df;
  match value with
  | pd.column s => update df (dict_set key s frame)
  | pd.subframe _ =>
      raise (ValueError
        ("Cannot set a DataFrame with multiple columns to the single column "
         +:+ key))
  end.

(** [df.copy()]. *)
Definition copy (df : ref) : Py ref :=
  frame ← deref df; new frame.

(** [df.dropna()]. *)
Definition dropna (df : ref) : Py ref :=
  frame ← deref df; new (pd.frame_dropna frame).

(** [df.mean(numeric_only=True)] and [df.median(numeric_only=True)]. *)
Definition mean (df : ref) : Py (dict (option num)) :=
  frame ← deref df; mret (pd.frame_stat np_mean frame).

Definition median (df : ref) : Py (dict (option num)) :=
  frame ← deref df; mret (pd.frame_stat np_median frame).

(** [df.fillna(value)]. *)
Definition fillna (df : ref) (value : dict (option num)) : Py ref :=
  frame ← deref df; new (pd.frame_fillna value frame).

(** [df.fillna(method=...)]. *)
Definition fillna_method (df : ref) (method : string) : Py ref :=
  frame ← deref df;
  if decide (method = "ffill") then new (pd.frame_fill (@pd.ffill) frame)
  else if decide (method = "bfill") then new (pd.frame_fill (@pd.bfill) frame)
  else raise (ValueError ("Invalid fill method: " +:+ method)).

(** [df.shape] and [df.isnull().sum().sum()]. *)
Definition shape (df : ref) : Py (nat * nat) :=
  frame ← deref df; mret (pd.frame_shape frame).

Definition isnull_sum_sum (df : ref) : Py nat :=
  frame ← deref df; mret (pd.frame_isnull_sum frame).
End Methods.
End pdm.

(** ** [battery_feature_mapper.py]: extraction and missing values *)

Module battery_feature_mapper_frames.
Section Methods.
Context {E : Re} {N : Numeric}.

(** [extract_features]. *)
Definition extract_features (self : BatteryFeatureMapper) (df : ref)
    (mapping : option (dict string)) : Py ref :=
  mapping ← match mapping with
            | Some mapping => mret mapping
            | None =>
                df_columns ← pdm.columns_tolist df;
                lift (find_matching_columns self df_columns)
            end;
  result_df ← pdm.DataFrame;
  for_each mapping (fun '(std_feature, actual_col) =>
    found ← pdm.in_columns actual_col df;
    if found : bool then
      value ← pdm.getitem df actual_col;
      pdm.setitem result_df std_feature value
    else
      print (WarningColumnNotFound actual_col)) ;;
  let missing_features : gset string :=
    list_to_set (standard_features self) ∖ list_to_set (keys mapping) in
  (if decide (missing_features = ∅) then mret ()
   else print (MissingFeatures missing_features)) ;;
  mret result_df.

(** [handle_missing_values]. *)
Definition handle_missing_values (self : BatteryFeatureMapper) (df : ref)
    (strategy : string) : Py ref :=
  df_clean ← pdm.copy df;
  df_clean ←
    (if decide (strategy = "drop") then
       pdm.dropna df_clean
     else if decide (strategy = "mean") then
       value ← pdm.mean df_clean; pdm.fillna df_clean value
     else if decide (strategy = "median") then
       value ← pdm.median df_clean; pdm.fillna df_clean value
     else if decide (strategy = "forward_fill") then
       pdm.fillna_method df_clean "ffill"
     else if decide (strategy = "backward_fill") then
       pdm.fillna_method df_clean "bfill"
     else
       print (WarningUnknownStrategy strategy) ;;
       value ← pdm.mean df_clean; pdm.fillna df_clean value);
  print (MissingValuesHandled strategy) ;;
  original ← pdm.shape df;
  after ← pdm.shape df_clean;
  print (Shapes original after) ;;
  missing_before ← pdm.isnull_sum_sum df;
  missing_after ← pdm.isnull_sum_sum df_clean;
  print (MissingValuesCount missing_before missing_after) ;;
  mret df_clean.
End Methods.
End battery_feature_mapper_frames.
Import battery_feature_mapper_frames.

(** ** [os.path.splitext], the POSIX one *)

Module os_path.

(** [p.rfind(c)]: the index of the last [c] in [p], or [-1]. *)
Fixpoint rfind (c : ascii) (p : string) : Z :=
  match p with
  | EmptyString => (-1)%Z
  | String a p' =>
      let i := rfind c p' in
      if (0 <=? i)%Z then (i + 1)%Z
      else if decide (a = c) then 0%Z else (-1)%Z
  end.

(** [p[:i]] and [p[i:]] for an index within [p]. *)
Definition upto (i : Z) (p : string) : string :=
  String.substring 0 (Z.to_nat i) p.

Definition from (i : Z) (p : string) : string :=
  String.substring (Z.to_nat i) (String.length p - Z.to_nat i) p.

(** The loop that skips the leading dots of the file name: it runs once
    per index from [filenameIndex] up to [dotIndex], [n] of them, and
    returns at the first character that is not a dot. *)
Fixpoint skip_leading_dots (p : string) (dotIndex : Z) (n : nat)
    (filenameIndex : Z) : option (string * string) :=
  match n with
  | O => None
  | S n' =>
      if decide (String.get (Z.to_nat filenameIndex) p = Some "."%char)
      then skip_leading_dots p dotIndex n' (filenameIndex + 1)%Z
      else Some (upto dotIndex p, from dotIndex p)
  end.

Definition splitext (p : string) : string * string :=
  let sepIndex := rfind "/" p in
  let dotIndex := rfind "." p in
  if (sepIndex <? dotIndex)%Z then
    let filenameIndex := (sepIndex + 1)%Z in
    match skip_leading_dots p dotIndex
            (Z.to_nat (dotIndex - filenameIndex)) filenameIndex with
    | Some split => split
    | None => (p, "")
    end
  else (p, "").

End os_path.

(** ** [data_loader.py] *)

(** The four pandas readers: what they return depends on the file system,
    which is no part of this model. *)
Class Readers {N : Numeric} : Type := {
  kwargs : Type;
  read_csv : string -> kwargs -> Py ref;
  read_excel : string -> kwargs -> Py ref;
  read_parquet : string -> kwargs -> Py ref;
  read_json : string -> kwargs -> Py ref
}.

Module data_loader.
Section Methods.
Context {N : Numeric} {R : Readers}.

Record BatteryDataLoader : Type := {
  feature_mapper : BatteryFeatureMapper
}.

(** [BatteryDataLoader.__init__]. *)
Definition init : BatteryDataLoader :=
  {| feature_mapper := battery_feature_mapper.init |}.

(** [load_dataset]. *)
Definition load_dataset (self : BatteryDataLoader) (file_path : string)
    (kw : kwargs) : Py ref :=
  let file_ext := PyStr.lower (os_path.splitext file_path).2 in
  if decide (file_ext = ".csv") then read_csv file_path kw
  else if bool_decide (file_ext ∈ [".xlsx"; ".xls"]) then
    read_excel file_path kw
  else if decide (file_ext = ".parquet") then read_parquet file_path kw
  else if decide (file_ext = ".json") then read_json file_path kw
  else raise (ValueError ("Unsupported file format: " +:+ file_ext)).
End Methods.
End data_loader.

(** ** What [handle_missing_values] leaves behind, as functions of the frame *)

Module outcome.
Section Outcome.
Context {N : Numeric}.

Definition known_strategies : list string :=
  ["mean"; "median"; "drop"; "forward_fill"; "backward_fill"].

(** The frame the chosen branch computes. *)
Definition cleaned (strategy : string) (frame : pd.DataFrame)
    : pd.DataFrame :=
  if decide (strategy = "drop") then pd.frame_dropna frame
  else if decide (strategy = "mean") then
    pd.frame_fillna (pd.frame_stat np_mean frame) frame
  else if decide (strategy = "median") then
    pd.frame_fillna (pd.frame_stat np_median frame) frame
  else if decide (strategy = "forward_fill") then
    pd.frame_fill (@pd.ffill) frame
  else if decide (strategy = "backward_fill") then
    pd.frame_fill (@pd.bfill) frame
  else pd.frame_fillna (pd.frame_stat np_mean frame) frame.

(** The three lines printed after the branch. *)
Definition report (strategy : string) (frame df_clean : pd.DataFrame)
    : list line :=
  [ MissingValuesHandled strategy;
    Shapes (pd.frame_shape frame) (pd.frame_shape df_clean);
    MissingValuesCount (pd.frame_isnull_sum frame)
      (pd.frame_isnull_sum df_clean) ].

Definition warning (strategy : string) : list line :=
  if bool_decide (strategy ∈ known_strategies) then []
  else [WarningUnknownStrategy strategy].

(** What [extract_features] builds from a mapping: the mapped columns
    that the table has, under the feature names, in mapping order. *)
Definition extracted (frame : pd.DataFrame) (mapping : dict string)
    : pd.DataFrame :=
  omap (fun item => (fun s => (item.1, s)) <$> dict_get item.2 frame) mapping.

(** The same, one assignment [result_df[std_feature] = ...] at a time. *)
Definition extract_into (frame : pd.DataFrame) (mapping : dict string)
    (result_df : pd.DataFrame) : pd.DataFrame :=
  foldl (fun acc item =>
           match dict_get item.2 frame with
           | Some s => dict_set item.1 s acc
           | None => acc
           end) result_df mapping.

Definition column_warnings (frame : pd.DataFrame) (mapping : dict string)
    : list line :=
  omap (fun item =>
          if dict_mem item.2 frame then None
          else Some (WarningColumnNotFound item.2)) mapping.

Definition missing_report (self : BatteryFeatureMapper)
    (mapping : dict string) : list line :=
  let missing_features : gset string :=
    list_to_set (standard_features self) ∖ list_to_set (keys mapping) in
  if decide (missing_features = ∅) then []
  else [MissingFeatures missing_features].
End Outcome.
End outcome.

(** ** Objects for the examples *)

Module examples.
(** A table of three rows. *)
Definition cells : dict (@pd.Series Z_stats) :=
  [ ("Voltage_V", @pd.Float64 Z_stats [Some 37%Z; None; Some 41%Z]);
    ("Cap_Ah", @pd.Float64 Z_stats [Some 2%Z; Some 3%Z; None]);
    ("notes", @pd.Object Z_stats [Some "ok"; None; None]) ].

(** A heap with that table at reference 1, nothing printed yet. *)
Definition world0 : @world Z_stats :=
  {| heap := {[ 1%positive := cells ]}; stdout := [] |}.

(** A file system without files. *)
Definition no_files : @Readers Z_stats := {|
  kwargs := unit;
  read_csv path _ := raise (FileNotFoundError path);
  read_excel path _ := raise (FileNotFoundError path);
  read_parquet path _ := raise (FileNotFoundError path);
  read_json path _ := raise (FileNotFoundError path)
|}.
End examples.

(** ** Invariants and relations used in the proofs *)

Module invariants.
Section Matcher.
Context {E : Re}.
Implicit Types (m : dict string) (cols : list string).

(** The locals reachable in [find_matching_columns]: [used_columns] is the
    set of the columns bound so far. *)
Definition locals_of m : locals :=
  {| matches := m; used_columns := list_to_set (values m) |}.

(** What holds of the mapping throughout: distinct features, distinct
    columns, each taken from the input and matched by a pattern that the
    registry lists for the feature. *)
Definition mapping_inv (reg : dict (list string)) cols m : Prop :=
  NoDup (keys m) /\ NoDup (values m) /\
  forall feature col, (feature, col) ∈ m ->
    col ∈ cols /\
    exists patterns pattern,
      (feature, patterns) ∈ reg /\ pattern ∈ patterns /\
      Spec.contains_match pattern col = true.
End Matcher.

(** Two engines agree on a pattern and the columns at hand: both reject the
    pattern, or both compile it and find it in the same columns. *)
Definition re_agree (E1 E2 : Re) (cols : list string) (pattern : string) : Prop :=
  match @re_compile E1 pattern, @re_compile E2 pattern with
  | Some r1, Some r2 =>
      forall col, col ∈ cols -> @re_search E1 r1 col = @re_search E2 r2 col
  | None, None => True
  | _, _ => False
  end.

(** A method that leaves every object of the heap as it was; it may
    create objects and print. *)
Definition read_only {N : Numeric} {A} (m : Py A) : Prop :=
  forall w, heap w ⊆ heap (m w).2.
End invariants.
Import invariants.

(** ** The states of a mapper *)

Module registry.

(** The states a [BatteryFeatureMapper] goes through: the one [__init__]
    builds, and those [add_custom_pattern] makes of them. *)
Inductive reachable : BatteryFeatureMapper -> Prop :=
  | reachable_init : reachable battery_feature_mapper.init
  | reachable_add self feature_name patterns :
      reachable self ->
      reachable (add_custom_pattern self feature_name patterns).

End registry.
Import registry.

(** ** A column, or a table, that keeps the data of another *)

Module keeps.
Section Keeps.
Context {N : Numeric}.

(** As many rows, and every cell that is not missing unchanged. *)
Definition keeps_cells {A} (d d' : list (option A)) : Prop :=
  length d' = length d /\
  forall i x, d !! i = Some (Some x) -> d' !! i = Some (Some x).

(** The same kind of column. *)
Definition series_keeps (s s' : pd.Series) : Prop :=
  match s, s' with
  | pd.Float64 d, pd.Float64 d' => keeps_cells d d'
  | pd.Object d, pd.Object d' => keeps_cells d d'
  | _, _ => False
  end.

(** The same labels in the same order. *)
Definition frame_keeps (frame frame' : pd.DataFrame) : Prop :=
  Forall2 (fun item item' => item.1 = item'.1 /\ series_keeps item.2 item'.2)
    frame frame'.
End Keeps.
End keeps.
Import keeps.

(** ** [data_loader.py]: processing *)

Module data_loader_process.

(** The lines [process_dataset] and [process_dataset_from_df] print. *)
Inductive report_line : Type :=
  | OriginalShape (shape : nat * nat)
  | OriginalColumns (columns : list string)
  | DetectedMapping (feature_mapping : dict string)
  | ProcessedShape (shape : nat * nat)
  | AvailableFeatures (columns : list string).

(** The dictionary they return. *)
Record ProcessResult : Type := {
  raw_data : ref;
  processed_data : ref;
  feature_mapping : dict string;
  available_features : list string
}.

Section Methods.
Context {E : Re} {N : Numeric} {R : Readers}.

(** The heap, and the output stream with the lines of the loader ([inl]) and
    those of the mapper ([inr]) in the order they are printed. *)
Record session : Type := {
  objects : gmap ref pd.DataFrame;
  printed : list (report_line + line)
}.

Definition Loader (A : Type) : Type := session -> result A * session.

Global Instance Loader_ret : MRet Loader := fun A a s => (Ok a, s).

Global Instance Loader_bind : MBind Loader := fun A B k m s =>
  match m s with
  | (Ok a, s') => k a s'
  | (Raise e, s') => (Raise e, s')
  end.

Definition report (l : report_line) : Loader unit := fun s =>
  (Ok (), {| objects := objects s; printed := printed s ++ [inl l] |}).

(** A call into the mapper or into pandas: it runs on the heap, and what it
    prints goes to the end of the stream. *)
Definition call {A} (m : Py A) : Loader A := fun s =>
  let '(r, w') := m {| heap := objects s; stdout := [] |} in
  (r, {| objects := heap w';
         printed := printed s ++ (inr <$> stdout w') |}).

(** [process_dataset]. *)
Definition process_dataset (self : data_loader.BatteryDataLoader)
    (file_path : string) (kw : kwargs) : Loader ProcessResult :=
  raw_df ← call (data_loader.load_dataset self file_path kw);
  shape ← call (pdm.shape raw_df);
  report (OriginalShape shape) ;;
  columns ← call (pdm.columns_tolist raw_df);
  report (OriginalColumns columns) ;;
  df_columns ← call (pdm.columns_tolist raw_df);
  feature_mapping ← call (lift (find_matching_columns
                                  (data_loader.feature_mapper self) df_columns));
  report (DetectedMapping feature_mapping) ;;
  processed_df ← call (extract_features (data_loader.feature_mapper self)
                         raw_df (Some feature_mapping));
  shape ← call (pdm.shape processed_df);
  report (ProcessedShape shape) ;;
  columns ← call (pdm.columns_tolist processed_df);
  report (AvailableFeatures columns) ;;
  columns ← call (pdm.columns_tolist processed_df);
  mret {| raw_data := raw_df;
          processed_data := processed_df;
          feature_mapping := feature_mapping;
          available_features := columns |}.

(** [process_dataset_from_df]. *)
Definition process_dataset_from_df (self : data_loader.BatteryDataLoader)
    (df : ref) : Loader ProcessResult :=
  shape ← call (pdm.shape df);
  report (OriginalShape shape) ;;
  columns ← call (pdm.columns_tolist df);
  report (OriginalColumns columns) ;;
  df_columns ← call (pdm.columns_tolist df);
  feature_mapping ← call (lift (find_matching_columns
                                  (data_loader.feature_mapper self) df_columns));
  report (DetectedMapping feature_mapping) ;;
  processed_df ← call (extract_features (data_loader.feature_mapper self)
                         df (Some feature_mapping));
  shape ← call (pdm.shape processed_df);
  report (ProcessedShape shape) ;;
  columns ← call (pdm.columns_tolist processed_df);
  report (AvailableFeatures columns) ;;
  columns ← call (pdm.columns_tolist processed_df);
  mret {| raw_data := df;
          processed_data := processed_df;
          feature_mapping := feature_mapping;
          available_features := columns |}.
End Methods.
End data_loader_process.
Import data_loader_process.

(** ** More objects for the examples *)

Module examples_more.
(** The heap of [world0] before anything is printed. *)
Definition session0 : @session Z_stats :=
  {| objects := {[ 1%positive := examples.cells ]}; printed := [] |}.

(** A loader whose mapper has a feature with a pattern that does not
    compile. *)
Definition loader_bad_pattern : data_loader.BatteryDataLoader :=
  {| data_loader.feature_mapper :=
       add_custom_pattern battery_feature_mapper.init "cycle" ["n(o"] |}.
End examples_more.
Import examples_more.

(* ================================================================== *)
(** * Properties *)

Import PyStr ReLiteral Spec.

(** ** Dictionaries *)

Section DictFacts.
Context {V : Type}.
Implicit Types (d : dict V) (k : string) (v : V).

Lemma dict_mem_true k d : dict_mem k d = true <-> k ∈ keys d.
Proof.
  unfold dict_mem, keys. induction d as [|[k' v'] d IH]; simpl.
  - split; [done | by intros ?%elem_of_nil].
  - rewrite elem_of_cons. case_decide as Hk; [by split; [left|]|].
    rewrite IH. by split; [right | intros [?|?]].
Qed.

Lemma dict_mem_false k d : dict_mem k d = false <-> k ∉ keys d.
Proof. rewrite <- dict_mem_true. by destruct (dict_mem k d). Qed.

Lemma dict_set_fresh k v d : k ∉ keys d -> dict_set k v d = d ++ [(k, v)].
Proof.
  unfold keys. induction d as [|[k' v'] d IH]; simpl; [done|].
  rewrite not_elem_of_cons. intros [Hne Hd].
  case_decide; [done|]. by rewrite IH.
Qed.

Lemma dict_get_Some k v d : dict_get k d = Some v -> (k, v) ∈ d.
Proof.
  induction d as [|[k' v'] d IH]; simpl; [done|].
  case_decide; [intros [= ->]; subst; left | right; auto].
Qed.

Lemma dict_get_None k d : dict_get k d = None <-> k ∉ keys d.
Proof.
  rewrite <- dict_mem_false. unfold dict_mem. by destruct (dict_get k d).
Qed.

Lemma dict_get_set_eq k v d : dict_get k (dict_set k v d) = Some v.
Proof.
  induction d as [|[k' v'] d IH]; simpl.
  - by rewrite decide_True.
  - case_decide; simpl; [by rewrite decide_True | by rewrite decide_False].
Qed.

Lemma dict_get_set_ne k k' v d :
  k <> k' -> dict_get k' (dict_set k v d) = dict_get k' d.
Proof.
  intros Hne. induction d as [|[k0 v0] d IH]; simpl.
  - by rewrite decide_False.
  - case_decide; simpl; [subst; by rewrite !decide_False|].
    by rewrite IH.
Qed.

Lemma keys_dict_set k v d :
  keys (dict_set k v d) = if dict_mem k d then keys d else keys d ++ [k].
Proof.
  unfold dict_mem, keys. induction d as [|[k' v'] d IH]; simpl; [done|].
  case_decide; csimpl; [by subst|].
  rewrite IH. by destruct (dict_get k d).
Qed.

Lemma dict_wf_set k v d : dict_wf d -> dict_wf (dict_set k v d).
Proof.
  unfold dict_wf. rewrite keys_dict_set.
  destruct (dict_mem k d) eqn:Hk; [done|].
  apply dict_mem_false in Hk. intros Hd.
  apply NoDup_app. split_and!; [done | | apply NoDup_singleton].
  intros x Hx ->%list_elem_of_singleton. done.
Qed.

Lemma dict_wf_lookup k v d : dict_wf d -> (k, v) ∈ d -> dict_get k d = Some v.
Proof.
  unfold dict_wf, keys. induction d as [|[k' v'] d IH]; simpl.
  - by intros _ ?%elem_of_nil.
  - rewrite NoDup_cons. intros [Hk Hd] Hin.
    apply elem_of_cons in Hin as [[= -> ->]|Hin]; [by rewrite decide_True|].
    case_decide; [subst|by auto].
    destruct Hk. apply list_elem_of_fmap. by exists (k', v).
Qed.
End DictFacts.

(** ** The matcher's loops *)

Section MatcherFacts.
Context {E : Re}.
Implicit Types (m : dict string) (cols : list string) (st : locals).

Lemma locals_of_bind m feature col :
  {| matches := m ++ [(feature, col)];
     used_columns := list_to_set (values m) ∪ {[col]} |}
  = locals_of (m ++ [(feature, col)]).
Proof.
  unfold locals_of, values. f_equal.
  rewrite fmap_app, list_to_set_app_L. csimpl.
  by rewrite union_empty_r_L.
Qed.

Lemma for_col_spec regex pattern feature cols m :
  re_compile pattern = Some regex ->
  for_col regex feature cols (locals_of m) =
    if dict_mem feature m then locals_of m
    else match first_column m pattern cols with
         | Some col => locals_of (m ++ [(feature, col)])
         | None => locals_of m
         end.
Proof.
  intros Hre. unfold first_column.
  induction cols as [|col cols IH]; cbn [for_col List.find].
  - by destruct (dict_mem feature m).
  - assert (Hel : eligible m pattern col =
      re_search regex col && bool_decide (col ∉ used_columns (locals_of m))).
    { unfold eligible, contains_match. rewrite Hre. f_equal.
      apply bool_decide_ext. cbn. by rewrite elem_of_list_to_set. }
    rewrite Hel, IH. cbn [locals_of matches used_columns].
    destruct (dict_mem feature m) eqn:Hmem.
    + by rewrite andb_false_r.
    + rewrite andb_true_r.
      destruct (re_search regex col && _); [|done].
      rewrite dict_set_fresh by (by apply dict_mem_false).
      apply locals_of_bind.
Qed.

Lemma dict_mem_bind m feature col :
  dict_mem feature (m ++ [(feature, col)]) = true.
Proof.
  apply dict_mem_true. unfold keys. rewrite fmap_app.
  apply elem_of_app. right. by left.
Qed.

(** One feature's pattern loop either leaves the locals alone or binds the
    feature to the first eligible column of one of its patterns. *)
Lemma for_pattern_step feature patterns cols m st' :
  for_pattern feature patterns cols (locals_of m) = Ok st' ->
  st' = locals_of m \/
  exists pattern col,
    pattern ∈ patterns /\ (feature ∉ keys m) /\
    first_column m pattern cols = Some col /\
    st' = locals_of (m ++ [(feature, col)]).
Proof.
  induction patterns as [|pattern rest IH]; cbn [for_pattern].
  - intros [= <-]. by left.
  - destruct (re_compile pattern) as [regex|] eqn:Hre; [|done].
    rewrite (for_col_spec _ _ _ _ _ Hre).
    destruct (dict_mem feature m) eqn:Hmem.
    { cbn [locals_of matches]. rewrite Hmem. intros [= <-]. by left. }
    destruct (first_column m pattern cols) as [col|] eqn:Hcol.
    + cbn [locals_of matches]. rewrite dict_mem_bind. intros [= <-].
      right. exists pattern, col. split_and!; [by left | | done | done].
      by apply dict_mem_false.
    + cbn [locals_of matches]. rewrite Hmem. intros Hrest.
      destruct (IH Hrest) as [->|(p & c & ? & ? & ? & ->)]; [by left|].
      right. exists p, c. split_and!; [by right | done | done | done].
Qed.

(** With patterns that all compile, the pattern loop of a feature not yet
    bound is [first_pattern]. *)
Lemma for_pattern_spec feature patterns cols m :
  (forall pattern, pattern ∈ patterns -> is_Some (re_compile pattern)) ->
  feature ∉ keys m ->
  for_pattern feature patterns cols (locals_of m) =
    Ok (locals_of match first_pattern m patterns cols with
                  | Some col => m ++ [(feature, col)]
                  | None => m
                  end).
Proof.
  intros Hok Hfresh. apply dict_mem_false in Hfresh.
  induction patterns as [|pattern rest IH]; cbn [for_pattern first_pattern];
    [done|].
  destruct (Hok pattern) as [regex Hre]; [by left|]. rewrite Hre.
  rewrite (for_col_spec _ _ _ _ _ Hre), Hfresh.
  destruct (first_column m pattern cols) as [col|];
    cbn [locals_of matches].
  - by rewrite dict_mem_bind.
  - rewrite Hfresh. apply IH. intros p Hp. apply Hok. by right.
Qed.

Lemma mapping_inv_bind reg cols m feature patterns pattern col :
  mapping_inv reg cols m ->
  (feature, patterns) ∈ reg -> pattern ∈ patterns ->
  feature ∉ keys m ->
  first_column m pattern cols = Some col ->
  mapping_inv reg cols (m ++ [(feature, col)]).
Proof.
  intros (Hk & Hv & Hj) Hreg Hp Hfresh Hcol.
  apply find_some in Hcol as [Hin Hel]. apply list_elem_of_In in Hin.
  apply andb_prop in Hel as [Hmatch Hfree].
  apply bool_decide_eq_true in Hfree.
  unfold mapping_inv, keys, values in *. rewrite !fmap_app. csimpl.
  split_and!.
  - apply NoDup_app. split_and!; [done | | apply NoDup_singleton].
    by intros x Hx ->%list_elem_of_singleton.
  - apply NoDup_app. split_and!; [done | | apply NoDup_singleton].
    by intros x Hx ->%list_elem_of_singleton.
  - intros f c [Hfc|[= -> ->]%list_elem_of_singleton]%elem_of_app;
      [by apply Hj|].
    split; [done|]. by exists patterns, pattern.
Qed.

Lemma for_feature_inv reg items cols m st' :
  (forall item, item ∈ items -> item ∈ reg) ->
  mapping_inv reg cols m ->
  for_feature items cols (locals_of m) = Ok st' ->
  exists m', st' = locals_of m' /\ mapping_inv reg cols m'.
Proof.
  revert m. induction items as [|[feature patterns] rest IH];
    intros m Hsub Hinv; cbn [for_feature].
  - intros [= <-]. by exists m.
  - destruct (for_pattern feature patterns cols (locals_of m))
      as [st1|] eqn:Hpat; [|done]. cbn [result_bind].
    assert (Hrest : forall item, item ∈ rest -> item ∈ reg)
      by (intros ? ?; apply Hsub; by right).
    apply for_pattern_step in Hpat
      as [->|(pattern & col & Hp & Hfresh & Hcol & ->)].
    + by apply IH.
    + apply IH; [done|].
      eapply mapping_inv_bind; [done | apply Hsub; by left | done | done | done].
Qed.

Lemma find_matching_columns_inv self cols m :
  find_matching_columns self cols = Ok m ->
  mapping_inv (feature_patterns self) cols m.
Proof.
  unfold find_matching_columns.
  destruct (for_feature _ _ _) as [st'|] eqn:Hfor; [|done].
  cbn [result_bind]. intros [= <-].
  change {| matches := []; used_columns := ∅ |} with (locals_of []) in Hfor.
  apply for_feature_inv with (reg := feature_patterns self) in Hfor
    as (m' & -> & Hinv); [done | done |].
  split_and!; [apply NoDup_nil_2 | apply NoDup_nil_2 |].
  by intros ? ? ?%elem_of_nil.
Qed.

(** With a well-formed registry of patterns that compile, the feature loop
    is the greedy algorithm. *)
Lemma for_feature_spec items cols m :
  patterns_compile items -> dict_wf items ->
  (forall feature, feature ∈ keys items -> feature ∉ keys m) ->
  for_feature items cols (locals_of m) =
    Ok (locals_of (greedy_from items cols m)).
Proof.
  revert m. induction items as [|[feature patterns] rest IH];
    intros m Hok Hwf Hfresh; cbn [for_feature greedy_from]; [done|].
  unfold dict_wf, keys in Hwf. csimpl in Hwf.
  apply NoDup_cons in Hwf as [Hhead Hwf].
  apply Forall_cons in Hok as [Hpat Hok].
  rewrite for_pattern_spec; cycle 1.
  { intros p Hp. by eapply Forall_forall in Hpat. }
  { apply Hfresh. unfold keys. csimpl. by left. }
  cbn [result_bind]. apply IH; [done | done |].
  intros f Hf. assert (f ∉ keys m)
    by (apply Hfresh; unfold keys; csimpl; by right).
  destruct (first_pattern m patterns cols); [|done].
  unfold keys. rewrite fmap_app. csimpl.
  rewrite elem_of_app, list_elem_of_singleton.
  intros [?| ->]; done.
Qed.

Lemma find_matching_columns_spec self cols :
  dict_wf (feature_patterns self) ->
  patterns_compile (feature_patterns self) ->
  find_matching_columns self cols =
    Ok (greedy_mapping (feature_patterns self) cols).
Proof.
  intros Hwf Hok. unfold find_matching_columns, greedy_mapping.
  change {| matches := []; used_columns := ∅ |} with (locals_of []).
  rewrite for_feature_spec; [done | done | done |].
  by intros ? _ ?%elem_of_nil.
Qed.

(** The greedy algorithm only ever appends. *)
Lemma greedy_from_extends specs cols m :
  exists tail, greedy_from specs cols m = m ++ tail.
Proof.
  revert m. induction specs as [|[feature patterns] rest IH]; intros m;
    cbn [greedy_from].
  - exists []. by rewrite app_nil_r.
  - destruct (first_pattern m patterns cols) as [col|]; [|apply IH].
    destruct (IH (m ++ [(feature, col)])) as [tail ->].
    eexists. by rewrite <- app_assoc.
Qed.

(** The first feature takes the first column when its first pattern
    matches it. *)
Lemma greedy_mapping_head feature pattern patterns rest col cols :
  contains_match pattern col = true ->
  dict_get feature
    (greedy_mapping ((feature, pattern :: patterns) :: rest) (col :: cols))
  = Some col.
Proof.
  intros Hm. unfold greedy_mapping.
  cbn [greedy_from first_pattern first_column List.find].
  assert (eligible [] pattern col = true) as ->.
  { unfold eligible. rewrite Hm. apply bool_decide_eq_true.
    by intros ?%elem_of_nil. }
  destruct (greedy_from_extends rest (col :: cols) ([] ++ [(feature, col)]))
    as [tail ->].
  cbn. by rewrite decide_True.
Qed.
End MatcherFacts.

(** ** Two engines that agree on the patterns and columns at hand *)

Section Engines.
Context (E1 E2 : Re).

Lemma for_col_agree r1 r2 feature cols st :
  (forall col, col ∈ cols -> @re_search E1 r1 col = @re_search E2 r2 col) ->
  for_col (E:=E1) r1 feature cols st = for_col (E:=E2) r2 feature cols st.
Proof.
  induction cols as [|col cols IH]; intros Hag; cbn [for_col]; [done|].
  rewrite Hag by (by left). rewrite IH; [done|].
  intros c Hc. apply Hag. by right.
Qed.

Lemma for_pattern_agree feature patterns cols st :
  Forall (re_agree E1 E2 cols) patterns ->
  for_pattern (E:=E1) feature patterns cols st =
  for_pattern (E:=E2) feature patterns cols st.
Proof.
  intros Hag. revert st.
  induction Hag as [|pattern rest Hp _ IH]; intros st; cbn [for_pattern];
    [done|].
  unfold re_agree in Hp.
  destruct (@re_compile E1 pattern) as [r1|],
           (@re_compile E2 pattern) as [r2|]; try done.
  rewrite (for_col_agree r1 r2) by done.
  by destruct (dict_mem feature _).
Qed.

Lemma for_feature_agree items cols st :
  Forall (fun item => Forall (re_agree E1 E2 cols) item.2) items ->
  for_feature (E:=E1) items cols st = for_feature (E:=E2) items cols st.
Proof.
  intros Hag. revert st.
  induction Hag as [|[feature patterns] rest Hp _ IH]; intros st;
    cbn [for_feature]; [done|].
  rewrite for_pattern_agree by done.
  destruct (for_pattern _ _ _ _); cbn [result_bind]; [apply IH | done].
Qed.

Lemma find_matching_columns_agree self cols :
  Forall (fun item => Forall (re_agree E1 E2 cols) item.2) (feature_patterns self) ->
  find_matching_columns (E:=E1) self cols =
  find_matching_columns (E:=E2) self cols.
Proof.
  intros Hag. unfold find_matching_columns. by rewrite for_feature_agree.
Qed.
End Engines.

Section LiteralEngine.
Context {E : Re} (HE : re_literal_law E).

Lemma literal_re_law : re_literal_law literal_re.
Proof.
  intros p Hp. exists p. split; [|done]. cbn. by rewrite Hp.
Qed.

Lemma contains_match_literal pattern col :
  literal pattern = true -> is_ascii col = true ->
  contains_match (E:=E) pattern col = icontains pattern col.
Proof.
  intros Hp Hc. unfold contains_match.
  destruct (HE pattern Hp) as (r & -> & Hr). by apply Hr.
Qed.

Lemma re_agree_literal cols pattern :
  ascii_columns cols = true -> literal pattern = true ->
  re_agree E literal_re cols pattern.
Proof.
  intros Hcols Hp. unfold re_agree.
  destruct (HE pattern Hp) as (r & -> & Hr). cbn. rewrite Hp.
  intros col Hcol. apply Hr.
  unfold ascii_columns in Hcols. rewrite forallb_forall in Hcols.
  apply Hcols. by apply list_elem_of_In.
Qed.

(** On literal patterns and ASCII columns the matcher does not depend on
    the engine. *)
Lemma find_matching_columns_literal self cols :
  literal_patterns (feature_patterns self) = true ->
  ascii_columns cols = true ->
  find_matching_columns (E:=E) self cols =
  find_matching_columns (E:=literal_re) self cols.
Proof.
  intros Hreg Hcols. apply find_matching_columns_agree.
  unfold literal_patterns in Hreg. rewrite forallb_forall in Hreg.
  apply Forall_forall. intros item Hitem%list_elem_of_In.
  specialize (Hreg _ Hitem). rewrite forallb_forall in Hreg.
  apply Forall_forall. intros p Hp%list_elem_of_In.
  apply re_agree_literal; auto.
Qed.
End LiteralEngine.

(** ** The built-in registry *)

Lemma default_patterns_wf : dict_wf default_patterns.
Proof. apply (bool_decide_unpack _). by vm_compute. Qed.

Lemma default_patterns_literal : literal_patterns default_patterns = true.
Proof. by vm_compute. Qed.

Lemma literal_patterns_set feature_name patterns specs :
  forallb literal patterns = true -> literal_patterns specs = true ->
  literal_patterns (dict_set feature_name patterns specs) = true.
Proof.
  intros Hp. unfold literal_patterns.
  induction specs as [|[k ps] specs IH]; cbn [dict_set forallb].
  - intros _. cbn. by rewrite Hp.
  - intros [Hk Hs]%andb_prop. case_decide; cbn [forallb snd].
    + by rewrite Hp, Hs.
    + cbn in Hk. by rewrite Hk, IH.
Qed.

Lemma literal_patterns_compile {E : Re} specs :
  re_literal_law E -> literal_patterns specs = true -> patterns_compile specs.
Proof.
  intros HE Hlit. unfold literal_patterns in Hlit.
  rewrite forallb_forall in Hlit.
  apply Forall_forall. intros item Hitem%list_elem_of_In.
  specialize (Hlit _ Hitem). rewrite forallb_forall in Hlit.
  apply Forall_forall. intros p Hp%list_elem_of_In.
  destruct (HE p (Hlit _ Hp)) as (r & -> & _). by eexists.
Qed.

(** A binding of the mapping comes from a pattern the registry lists for
    that very feature. *)
Lemma find_matching_columns_justified {E : Re} self cols mapping feature col :
  dict_wf (feature_patterns self) ->
  find_matching_columns self cols = Ok mapping ->
  dict_get feature mapping = Some col ->
  exists patterns pattern,
    dict_get feature (feature_patterns self) = Some patterns /\
    pattern ∈ patterns /\ contains_match pattern col = true /\ col ∈ cols.
Proof.
  intros Hwf Hfind Hget.
  apply find_matching_columns_inv in Hfind as (_ & _ & Hj).
  destruct (Hj _ _ (dict_get_Some _ _ _ Hget)) as (Hcol & ps & p & Hps & Hp & Hm).
  exists ps, p. split_and!; [by apply dict_wf_lookup | done | done | done].
Qed.

(** ** Running methods on the heap *)

Section HeapFacts.
Context {N : Numeric}.
Implicit Types (h : gmap ref pd.DataFrame) (out : list line) (w : world).

Lemma bind_run {A B} (m : Py A) (k : A -> Py B) w :
  (m ≫= k) w =
    match m w with
    | (Ok a, w') => k a w'
    | (Raise e, w') => (Raise e, w')
    end.
Proof. done. Qed.

Lemma bind_ok {A B} (m : Py A) (k : A -> Py B) w a w' :
  m w = (Ok a, w') -> (m ≫= k) w = k a w'.
Proof. intros Hm. by rewrite bind_run, Hm. Qed.

Lemma ret_run {A} (a : A) w : (mret a : Py A) w = (Ok a, w).
Proof. done. Qed.

Lemma deref_run df frame w :
  heap w !! df = Some frame -> deref df w = (Ok frame, w).
Proof. intros Hdf. unfold deref. by rewrite Hdf. Qed.

Lemma fresh_ref_ne h df :
  is_Some (h !! df) -> df <> fresh (dom h).
Proof.
  intros Hdf%elem_of_dom ->. by apply (is_fresh (dom h)).
Qed.

Lemma fresh_ref_None h : h !! fresh (dom h) = None.
Proof. apply not_elem_of_dom, is_fresh. Qed.

Lemma read_only_ret {A} (a : A) : read_only (mret a : Py A).
Proof. by intros w. Qed.

Lemma read_only_raise {A} e : read_only (raise e : Py A).
Proof. by intros w. Qed.

Lemma read_only_lift {A} (r : result A) : read_only (lift r).
Proof. by intros w. Qed.

Lemma read_only_print l : read_only (print l).
Proof. by intros w. Qed.

Lemma read_only_deref df : read_only (deref df).
Proof. intros w. unfold deref. by destruct (heap w !! df). Qed.

Lemma read_only_new frame : read_only (new frame).
Proof. intros w. cbn. apply insert_subseteq, fresh_ref_None. Qed.

Lemma read_only_bind {A B} (m : Py A) (k : A -> Py B) :
  read_only m -> (forall a, read_only (k a)) -> read_only (m ≫= k).
Proof.
  intros Hm Hk w. rewrite bind_run. specialize (Hm w).
  destruct (m w) as [[a|e] w']; [|done].
  etrans; [exact Hm | apply Hk].
Qed.

Lemma read_only_if {A} (b : bool) (m1 m2 : Py A) :
  read_only m1 -> read_only m2 -> read_only (if b then m1 else m2).
Proof. by destruct b. Qed.

Lemma read_only_decide {A} (P : Prop) `{Decision P} (m1 m2 : Py A) :
  read_only m1 -> read_only m2 -> read_only (if decide P then m1 else m2).
Proof. by case_decide. Qed.
End HeapFacts.

Create HintDb read_only discriminated.
#[export] Hint Resolve read_only_ret read_only_raise read_only_lift
  read_only_print read_only_deref read_only_new : read_only.
#[export] Hint Extern 2 (read_only (_ ≫= _)) =>
  apply read_only_bind; [|intros ?] : read_only.
#[export] Hint Extern 2 (read_only (if decide _ then _ else _)) =>
  apply read_only_decide : read_only.

Section PandasFacts.
Context {N : Numeric}.

Lemma read_only_copy df : read_only (pdm.copy df).
Proof. unfold pdm.copy. auto with read_only. Qed.

Lemma read_only_dropna df : read_only (pdm.dropna df).
Proof. unfold pdm.dropna. auto with read_only. Qed.

Lemma read_only_mean df : read_only (pdm.mean df).
Proof. unfold pdm.mean. auto with read_only. Qed.

Lemma read_only_median df : read_only (pdm.median df).
Proof. unfold pdm.median. auto with read_only. Qed.

Lemma read_only_fillna df value : read_only (pdm.fillna df value).
Proof. unfold pdm.fillna. auto with read_only. Qed.

Lemma read_only_fillna_method df method :
  read_only (pdm.fillna_method df method).
Proof. unfold pdm.fillna_method. auto 7 with read_only. Qed.

Lemma read_only_shape df : read_only (pdm.shape df).
Proof. unfold pdm.shape. auto with read_only. Qed.

Lemma read_only_isnull_sum_sum df : read_only (pdm.isnull_sum_sum df).
Proof. unfold pdm.isnull_sum_sum. auto with read_only. Qed.
End PandasFacts.

#[export] Hint Resolve read_only_copy read_only_dropna read_only_mean
  read_only_median read_only_fillna read_only_fillna_method read_only_shape
  read_only_isnull_sum_sum : read_only.

(** ** [handle_missing_values] *)

Section HandleMissingValues.
Context {E : Re} {N : Numeric}.
Import outcome.

Lemma handle_missing_values_read_only self df strategy :
  read_only (handle_missing_values self df strategy).
Proof. unfold handle_missing_values. auto 20 with read_only. Qed.

Lemma print_run l w :
  print l w = (Ok (), {| heap := heap w; stdout := stdout w ++ [l] |}).
Proof. done. Qed.

Lemma copy_run df frame w :
  heap w !! df = Some frame ->
  pdm.copy df w =
    (Ok (fresh (dom (heap w))),
     {| heap := <[fresh (dom (heap w)) := frame]> (heap w);
        stdout := stdout w |}).
Proof. intros Hdf. unfold pdm.copy. by erewrite bind_ok by by apply deref_run. Qed.

Lemma dropna_run df frame w :
  heap w !! df = Some frame ->
  pdm.dropna df w =
    (Ok (fresh (dom (heap w))),
     {| heap := <[fresh (dom (heap w)) := pd.frame_dropna frame]> (heap w);
        stdout := stdout w |}).
Proof. intros Hdf. unfold pdm.dropna. by erewrite bind_ok by by apply deref_run. Qed.

Lemma fillna_run df value frame w :
  heap w !! df = Some frame ->
  pdm.fillna df value w =
    (Ok (fresh (dom (heap w))),
     {| heap := <[fresh (dom (heap w)) := pd.frame_fillna value frame]> (heap w);
        stdout := stdout w |}).
Proof. intros Hdf. unfold pdm.fillna. by erewrite bind_ok by by apply deref_run. Qed.

Lemma fillna_ffill_run df frame w :
  heap w !! df = Some frame ->
  pdm.fillna_method df "ffill" w =
    (Ok (fresh (dom (heap w))),
     {| heap := <[fresh (dom (heap w)) := pd.frame_fill (@pd.ffill) frame]> (heap w);
        stdout := stdout w |}).
Proof.
  intros Hdf. unfold pdm.fillna_method.
  by erewrite bind_ok by by apply deref_run.
Qed.

Lemma fillna_bfill_run df frame w :
  heap w !! df = Some frame ->
  pdm.fillna_method df "bfill" w =
    (Ok (fresh (dom (heap w))),
     {| heap := <[fresh (dom (heap w)) := pd.frame_fill (@pd.bfill) frame]> (heap w);
        stdout := stdout w |}).
Proof.
  intros Hdf. unfold pdm.fillna_method.
  by erewrite bind_ok by by apply deref_run.
Qed.

Lemma mean_run df frame w :
  heap w !! df = Some frame ->
  pdm.mean df w = (Ok (pd.frame_stat np_mean frame), w).
Proof. intros Hdf. unfold pdm.mean. by erewrite bind_ok by by apply deref_run. Qed.

Lemma median_run df frame w :
  heap w !! df = Some frame ->
  pdm.median df w = (Ok (pd.frame_stat np_median frame), w).
Proof. intros Hdf. unfold pdm.median. by erewrite bind_ok by by apply deref_run. Qed.

Lemma shape_run df frame w :
  heap w !! df = Some frame ->
  pdm.shape df w = (Ok (pd.frame_shape frame), w).
Proof. intros Hdf. unfold pdm.shape. by erewrite bind_ok by by apply deref_run. Qed.

Lemma isnull_sum_sum_run df frame w :
  heap w !! df = Some frame ->
  pdm.isnull_sum_sum df w = (Ok (pd.frame_isnull_sum frame), w).
Proof.
  intros Hdf. unfold pdm.isnull_sum_sum.
  by erewrite bind_ok by by apply deref_run.
Qed.

(** One statement of a method body, run by the lemma that describes it. *)
Ltac py_step lem :=
  erewrite bind_ok by (apply lem; cbn [heap stdout]; eassumption);
  cbn [heap stdout].

Lemma handle_missing_values_run self df strategy w frame :
  heap w !! df = Some frame ->
  let df_copy := fresh (dom (heap w)) in
  let h1 := <[df_copy := frame]> (heap w) in
  let df_clean := fresh (dom h1) in
  handle_missing_values self df strategy w =
    (Ok df_clean,
     {| heap := <[df_clean := cleaned strategy frame]> h1;
        stdout := stdout w ++ warning strategy
                    ++ report strategy frame (cleaned strategy frame) |}).
Proof.
  intros Hdf df_copy h1 df_clean. destruct w as [h out].
  cbn [heap stdout] in *.
  assert (Hcopy : h1 !! df_copy = Some frame) by apply lookup_insert_eq.
  assert (Hne1 : df <> df_copy) by (by apply fresh_ref_ne).
  assert (Hne2 : df <> df_clean).
  { apply fresh_ref_ne. unfold h1. by rewrite lookup_insert_ne. }
  assert (Hdf2 : forall x, <[df_clean := x]> h1 !! df = Some frame).
  { intros x. unfold h1. by rewrite !lookup_insert_ne. }
  assert (Hclean : forall x, <[df_clean := x]> h1 !! df_clean = Some x)
    by (intros; apply lookup_insert_eq).
  unfold handle_missing_values.
  py_step copy_run. fold df_copy h1.
  assert (Hbranch :
    (if decide (strategy = "drop") then pdm.dropna df_copy
     else if decide (strategy = "mean") then
       value ← pdm.mean df_copy; pdm.fillna df_copy value
     else if decide (strategy = "median") then
       value ← pdm.median df_copy; pdm.fillna df_copy value
     else if decide (strategy = "forward_fill") then
       pdm.fillna_method df_copy "ffill"
     else if decide (strategy = "backward_fill") then
       pdm.fillna_method df_copy "bfill"
     else
       print (WarningUnknownStrategy strategy) ;;
       value ← pdm.mean df_copy; pdm.fillna df_copy value)
      {| heap := h1; stdout := out |}
    = (Ok df_clean,
       {| heap := <[df_clean := cleaned strategy frame]> h1;
          stdout := out ++ warning strategy |})).
  { unfold cleaned, warning, known_strategies.
    repeat case_decide; subst; try congruence.
    all: try (rewrite bool_decide_eq_true_2
                by (apply (bool_decide_unpack _); by vm_compute);
              rewrite app_nil_r).
    all: try (rewrite bool_decide_eq_false_2
                by (rewrite !elem_of_cons, elem_of_nil; intuition congruence);
              rewrite bind_run, print_run; cbn [heap stdout]).
    all: try py_step mean_run; try py_step median_run.
    all: first [ by erewrite dropna_run by exact Hcopy
               | by erewrite fillna_run by exact Hcopy
               | by erewrite fillna_ffill_run by exact Hcopy
               | by erewrite fillna_bfill_run by exact Hcopy ]. }
  erewrite bind_ok by exact Hbranch.
  rewrite bind_run, print_run. cbn [heap stdout].
  erewrite bind_ok by (apply shape_run; apply Hdf2).
  erewrite bind_ok by (apply shape_run; apply Hclean).
  rewrite bind_run, print_run. cbn [heap stdout].
  erewrite bind_ok by (apply isnull_sum_sum_run; apply Hdf2).
  erewrite bind_ok by (apply isnull_sum_sum_run; apply Hclean).
  rewrite bind_run, print_run, ret_run. cbn [heap stdout].
  unfold report. by rewrite <- !app_assoc.
Qed.
End HandleMissingValues.

(** ** [extract_features] *)

Section ExtractFeatures.
Context {E : Re} {N : Numeric}.
Import outcome.
Implicit Types (frame : pd.DataFrame) (mapping : dict string).

Lemma filter_label_absent col frame :
  col ∉ keys frame -> filter (fun item => item.1 = col) frame = [].
Proof.
  unfold keys. induction frame as [|[k s] frame IH]; [done|].
  rewrite fmap_cons, not_elem_of_cons. cbn [fst]. intros [Hne Hrest].
  rewrite filter_cons_False by (cbn; congruence). by apply IH.
Qed.

(** In a table a label names one column: [df[col]] is that column. *)
Lemma frame_getitem_column col frame :
  dict_wf frame -> col ∈ keys frame ->
  exists s, dict_get col frame = Some s /\
            pd.frame_getitem col frame = Some (pd.column s).
Proof.
  unfold dict_wf, keys, pd.frame_getitem.
  induction frame as [|[k s] frame IH].
  - by intros _ ?%elem_of_nil.
  - rewrite fmap_cons, NoDup_cons. cbn [fst dict_get].
    intros [Hk Hwf] Hin. case_decide as Heq.
    + subst k. exists s. split; [done|].
      rewrite filter_cons_True by done.
      by rewrite filter_label_absent.
    + rewrite filter_cons_False by (cbn; congruence).
      apply IH; [done|].
      apply elem_of_cons in Hin as [?|?]; [congruence | done].
Qed.

Lemma in_columns_run col df frame w :
  heap w !! df = Some frame ->
  pdm.in_columns col df w = (Ok (bool_decide (col ∈ keys frame)), w).
Proof.
  intros Hdf. unfold pdm.in_columns.
  by erewrite bind_ok by by apply deref_run.
Qed.

Lemma getitem_run col df frame s w :
  heap w !! df = Some frame ->
  pd.frame_getitem col frame = Some (pd.column s) ->
  pdm.getitem df col w = (Ok (pd.column s), w).
Proof.
  intros Hdf Hget. unfold pdm.getitem.
  erewrite bind_ok by by apply deref_run. by rewrite Hget.
Qed.

Lemma setitem_run df key s frame w :
  heap w !! df = Some frame ->
  pdm.setitem df key (pd.column s) w =
    (Ok (), {| heap := <[df := dict_set key s frame]> (heap w);
               stdout := stdout w |}).
Proof.
  intros Hdf. unfold pdm.setitem.
  by erewrite bind_ok by by apply deref_run.
Qed.

Lemma extract_into_cons frame f c mapping acc :
  extract_into frame ((f, c) :: mapping) acc =
    extract_into frame mapping
      match dict_get c frame with
      | Some s => dict_set f s acc
      | None => acc
      end.
Proof. done. Qed.

Lemma column_warnings_cons frame f c mapping :
  column_warnings frame ((f, c) :: mapping) =
    (if dict_mem c frame then [] else [WarningColumnNotFound c])
    ++ column_warnings frame mapping.
Proof. unfold column_warnings. csimpl. by destruct (dict_mem c frame). Qed.

(** The loop of [extract_features], from any state of [result_df]. *)
Lemma extract_loop_run df result_df frame mapping acc h out :
  h !! df = Some frame -> dict_wf frame ->
  df <> result_df -> h !! result_df = Some acc ->
  for_each mapping (fun '(std_feature, actual_col) =>
      found ← pdm.in_columns actual_col df;
      if found : bool then
        value ← pdm.getitem df actual_col;
        pdm.setitem result_df std_feature value
      else
        print (WarningColumnNotFound actual_col))
    {| heap := h; stdout := out |}
  = (Ok (), {| heap := <[result_df := extract_into frame mapping acc]> h;
               stdout := out ++ column_warnings frame mapping |}).
Proof.
  intros Hdf Hwf Hne. revert acc h out Hdf.
  induction mapping as [|[f c] mapping IH]; intros acc h out Hdf Hres;
    cbn [for_each].
  - rewrite ret_run. cbn. by rewrite insert_id, app_nil_r.
  - rewrite bind_run.
    erewrite bind_ok by (by apply in_columns_run).
    rewrite extract_into_cons, column_warnings_cons.
    case_bool_decide as Hin.
    + destruct (frame_getitem_column c frame Hwf Hin) as (s & Hs & Hget).
      erewrite bind_ok by (by eapply getitem_run).
      erewrite setitem_run by done. cbn [heap stdout].
      rewrite (IH (dict_set f s acc));
        [ | by rewrite lookup_insert_ne | apply lookup_insert_eq ].
      rewrite insert_insert_eq, Hs.
      apply dict_mem_true in Hin. by rewrite Hin.
    + rewrite print_run. cbn [heap stdout]. rewrite (IH acc) by done.
      apply dict_mem_false in Hin. rewrite Hin.
      apply dict_mem_false, dict_get_None in Hin. rewrite Hin.
      by rewrite <- app_assoc.
Qed.

Lemma extract_features_run self df mapping w frame :
  heap w !! df = Some frame -> dict_wf frame ->
  let result_df := fresh (dom (heap w)) in
  extract_features self df (Some mapping) w =
    (Ok result_df,
     {| heap := <[result_df := extract_into frame mapping []]> (heap w);
        stdout := stdout w ++ column_warnings frame mapping
                    ++ missing_report self mapping |}).
Proof.
  intros Hdf Hwf result_df. destruct w as [h out]. cbn [heap stdout] in *.
  unfold extract_features.
  rewrite bind_run, ret_run, bind_run. unfold pdm.DataFrame at 1, new at 1.
  cbn [heap stdout]. fold result_df.
  rewrite bind_run.
  assert (Hne : df <> result_df) by (by apply fresh_ref_ne).
  erewrite (extract_loop_run df result_df frame mapping []);
    [ | by rewrite lookup_insert_ne | done | done | apply lookup_insert_eq ].
  rewrite insert_insert_eq. unfold missing_report.
  rewrite bind_run. case_decide.
  - rewrite !ret_run. by rewrite app_nil_r.
  - rewrite print_run, ret_run. cbn [heap stdout]. by rewrite <- app_assoc.
Qed.

(** With a dictionary for a mapping every assignment adds a column. *)
Lemma extract_into_app frame mapping acc :
  dict_wf mapping ->
  (forall k, k ∈ keys mapping -> k ∉ keys acc) ->
  extract_into frame mapping acc = acc ++ extracted frame mapping.
Proof.
  unfold dict_wf, keys, extract_into, extracted. revert acc.
  induction mapping as [|[f c] mapping IH]; intros acc Hwf Hfresh; csimpl.
  - by rewrite app_nil_r.
  - apply NoDup_cons in Hwf as [Hf Hwf].
    destruct (dict_get c frame) as [s|]; csimpl.
    + rewrite dict_set_fresh by (apply Hfresh; by left).
      rewrite IH; [by rewrite <- app_assoc | done |].
      intros k Hk. rewrite fmap_app, not_elem_of_app. split.
      * apply Hfresh. by right.
      * csimpl. rewrite list_elem_of_singleton. by intros ->.
    + apply IH; [done|]. intros k Hk. apply Hfresh. by right.
Qed.

Lemma extract_into_wf frame mapping :
  dict_wf mapping -> extract_into frame mapping [] = extracted frame mapping.
Proof.
  intros Hwf. rewrite extract_into_app; [done | done |].
  by intros k _ ?%elem_of_nil.
Qed.

Lemma extracted_keys frame mapping :
  keys (extracted frame mapping)
  = keys (filter (fun item => item.2 ∈ keys frame) mapping).
Proof.
  unfold keys, extracted.
  induction mapping as [|[f c] mapping IH]; [done|]. csimpl.
  destruct (dict_get c frame) as [s|] eqn:Hc; csimpl.
  - rewrite filter_cons_True; [by csimpl; rewrite IH|].
    cbn. apply dict_mem_true. unfold dict_mem. by rewrite Hc.
  - rewrite filter_cons_False; [done|].
    cbn. by apply dict_get_None.
Qed.

Lemma extracted_keys_subset frame mapping :
  keys (extracted frame mapping) ⊆ keys mapping.
Proof.
  rewrite extracted_keys. unfold keys.
  intros k ([k' c] & -> & Hin%list_elem_of_filter)%list_elem_of_fmap.
  apply list_elem_of_fmap. exists (k', c). by destruct Hin.
Qed.

Lemma extracted_lookup frame mapping f c :
  dict_wf mapping -> (f, c) ∈ mapping ->
  dict_get f (extracted frame mapping) = dict_get c frame.
Proof.
  unfold dict_wf, keys, extracted.
  induction mapping as [|[f' c'] mapping IH]; csimpl.
  - by intros _ ?%elem_of_nil.
  - rewrite NoDup_cons. intros [Hf Hwf] Hin.
    apply elem_of_cons in Hin as [[= <- <-]|Hin].
    + destruct (dict_get c frame) as [s|] eqn:Hc; csimpl.
      * by rewrite decide_True.
      * apply dict_get_None. intros Hk%extracted_keys_subset. done.
    + assert (f <> f').
      { intros ->. apply Hf. apply list_elem_of_fmap. by exists (f', c). }
      destruct (dict_get c' frame); csimpl;
        [rewrite decide_False by done|]; by apply IH.
Qed.
End ExtractFeatures.

(** ** [os.path.splitext] *)

Section Splitext.
Import os_path.
Local Open Scope Z_scope.

Lemma rfind_range c p : -1 <= rfind c p < Z.of_nat (String.length p).
Proof.
  induction p as [|a p IH]; cbn [rfind String.length]; [lia|].
  destruct (Z.leb_spec 0 (rfind c p)); [lia|].
  case_decide; lia.
Qed.

Lemma rfind_app c s1 s2 :
  rfind c (s1 +:+ s2) =
    if 0 <=? rfind c s2 then Z.of_nat (String.length s1) + rfind c s2
    else rfind c s1.
Proof.
  induction s1 as [|a s1 IH].
  - change ("" +:+ s2) with s2. pose proof (rfind_range c s2).
    change (rfind c "") with (-1). change (String.length "") with 0%nat.
    destruct (Z.leb_spec 0 (rfind c s2)); lia.
  - change (String a s1 +:+ s2) with (String a (s1 +:+ s2)).
    cbn [rfind String.length]. rewrite IH.
    destruct (Z.leb_spec 0 (rfind c s2)) as [Hpos|Hneg]; [|done].
    pose proof (rfind_range c s1).
    destruct (Z.leb_spec 0 (Z.of_nat (String.length s1) + rfind c s2)); lia.
Qed.

Lemma get_app_length s1 c s2 :
  String.get (String.length s1) (s1 +:+ String c s2) = Some c.
Proof. induction s1 as [|a s1 IH]; [done | exact IH]. Qed.

Lemma substring_app_l s1 s2 :
  String.substring 0 (String.length s1) (s1 +:+ s2) = s1.
Proof.
  induction s1 as [|a s1 IH].
  - by destruct s2.
  - change (String a s1 +:+ s2) with (String a (s1 +:+ s2)).
    cbn [String.substring String.length]. by rewrite IH.
Qed.

Lemma substring_whole s : String.substring 0 (String.length s) s = s.
Proof.
  induction s as [|a s IH]; [done|].
  cbn [String.substring String.length]. by rewrite IH.
Qed.

Lemma substring_app_r s1 s2 :
  String.substring (String.length s1) (String.length s2) (s1 +:+ s2) = s2.
Proof.
  induction s1 as [|a s1 IH]; [apply substring_whole | exact IH].
Qed.

Lemma length_app s1 s2 :
  String.length (s1 +:+ s2) = (String.length s1 + String.length s2)%nat.
Proof.
  induction s1 as [|a s1 IH]; [done|].
  change (String a s1 +:+ s2) with (String a (s1 +:+ s2)).
  cbn [String.length]. by rewrite IH.
Qed.

Lemma app_assoc_str s1 s2 s3 : (s1 +:+ s2) +:+ s3 = s1 +:+ (s2 +:+ s3).
Proof.
  induction s1 as [|a s1 IH]; [done|].
  change (String a s1 +:+ s2) with (String a (s1 +:+ s2)).
  change (String a (s1 +:+ s2) +:+ s3) with (String a ((s1 +:+ s2) +:+ s3)).
  by rewrite IH.
Qed.

(** The loop stops at a character of the file name that is no dot. *)
Lemma skip_leading_dots_found p dotIndex n filenameIndex i :
  0 <= filenameIndex -> filenameIndex <= i < filenameIndex + Z.of_nat n ->
  String.get (Z.to_nat i) p <> Some "."%char ->
  skip_leading_dots p dotIndex n filenameIndex
  = Some (upto dotIndex p, from dotIndex p).
Proof.
  revert filenameIndex. induction n as [|n IH]; intros start Hstart Hi Hget;
    [lia|]. cbn [skip_leading_dots].
  case_decide as Hdot; [|done].
  apply IH; [lia | | done].
  assert (i <> start) by (intros ->; done). lia.
Qed.

(** A file name with a character that is neither a dot nor a slash right
    before its last dot splits at that dot. *)
Lemma splitext_suffix stem c e :
  c <> "."%char -> c <> "/"%char ->
  rfind "." e = -1 -> rfind "/" e = -1 ->
  splitext (stem +:+ String c (String "." e))
  = (stem +:+ String c "", String "." e).
Proof.
  intros Hc1 Hc2 He1 He2.
  set (root := stem +:+ String c "").
  assert (Hp : stem +:+ String c (String "." e) = root +:+ String "." e)
    by (unfold root; by rewrite app_assoc_str).
  assert (Hlen : String.length root = S (String.length stem))
    by (unfold root; rewrite length_app; cbn; lia).
  unfold splitext.
  assert (Hdot : rfind "." (stem +:+ String c (String "." e))
                 = Z.of_nat (String.length root)).
  { rewrite Hp, rfind_app. cbn [rfind]. rewrite He1.
    rewrite decide_True by done. cbn. lia. }
  assert (Hsep : rfind "/" (stem +:+ String c (String "." e))
                 = rfind "/" stem).
  { rewrite rfind_app. cbn [rfind]. rewrite He2.
    rewrite (decide_False (P := "."%char = "/"%char)) by done.
    by rewrite decide_False by done. }
  rewrite Hdot, Hsep. pose proof (rfind_range "/" stem) as Hr.
  destruct (Z.ltb_spec (rfind "/" stem) (Z.of_nat (String.length root)));
    [|lia].
  rewrite (skip_leading_dots_found _ _ _ _ (Z.of_nat (String.length stem)));
    [ | lia | lia | ].
  - unfold upto, from. rewrite Nat2Z.id, Hp. f_equal.
    + apply substring_app_l.
    + rewrite length_app.
      replace (String.length root + String.length (String "." e)
               - String.length root)%nat
        with (String.length (String "." e)) by lia.
      apply substring_app_r.
  - rewrite Nat2Z.id, get_app_length. congruence.
Qed.
End Splitext.

Section ExtractFeaturesWarnings.
Context {N : Numeric}.
Import outcome.


Lemma filter_present_all (frame : pd.DataFrame) (mapping : dict string) :
  (forall col, col ∈ values mapping -> col ∈ keys frame) ->
  filter (fun item => item.2 ∈ keys frame) mapping = mapping.
Proof.
  unfold values. induction mapping as [|[f c] mapping IH]; intros Hall;
    [done|].
  rewrite filter_cons_True by (apply Hall; rewrite fmap_cons; by left).
  rewrite IH; [done|]. intros col Hcol. apply Hall.
  rewrite fmap_cons. by right.
Qed.
End ExtractFeaturesWarnings.

(** ** The definitions on small inputs *)

Section Examples.
Import os_path examples.

Example order_precedence :
  find_matching_columns (E:=literal_re) battery_feature_mapper.init
    ["Cap_Ah"; "Voltage_V"; "Current_A"]
  = Ok [("capacity", "Cap_Ah"); ("voltage", "Voltage_V");
        ("current", "Current_A")].
Proof. vm_compute. reflexivity. Qed.

Example earlier_pattern_wins :
  find_matching_columns (E:=literal_re) battery_feature_mapper.init
    ["v"; "voltage"]
  = Ok [("voltage", "voltage")].
Proof. vm_compute. reflexivity. Qed.

Example forward_fill_boundary :
  @pd.ffill Z [None; Some 1; None; Some 2]%Z
  = [None; Some 1; Some 1; Some 2]%Z.
Proof. reflexivity. Qed.

Example backward_fill_boundary :
  @pd.bfill Z [None; Some 1; None; Some 2; None]%Z
  = [Some 1; Some 1; Some 2; Some 2; None]%Z.
Proof. reflexivity. Qed.

Example dropna_cells :
  pd.frame_dropna cells
  = [ ("Voltage_V", @pd.Float64 Z_stats [Some 37%Z]);
      ("Cap_Ah", @pd.Float64 Z_stats [Some 2%Z]);
      ("notes", @pd.Object Z_stats [Some "ok"]) ].
Proof. reflexivity. Qed.

Example splitext_cases :
  splitext "data/cells.tsv" = ("data/cells", ".tsv") /\
  splitext "x.tar.GZ" = ("x.tar", ".GZ") /\
  splitext "dir.d/cells" = ("dir.d/cells", "") /\
  splitext "dir/.hidden" = ("dir/.hidden", "") /\
  splitext "cells." = ("cells", ".").
Proof. by vm_compute. Qed.
End Examples.

(* ================================================================== *)
(** * The claims *)

(** ** Matching *)

(** C1: on a registry whose keys are distinct (a dictionary) and whose
    patterns are regular expressions, [find_matching_columns] raises nothing
    and returns exactly the greedy mapping: features in declaration order,
    each feature's patterns in declared order, columns in the given order,
    the first column matched by the pattern and bound to no earlier feature;
    the remaining patterns of a bound feature are skipped and a feature
    without an eligible column is left out. *)
Theorem find_matching_columns_greedy {E : Re}
    (self : BatteryFeatureMapper) (df_columns : list string) :
  dict_wf (feature_patterns self) ->
  patterns_compile (feature_patterns self) ->
  find_matching_columns self df_columns =
    Ok (greedy_mapping (feature_patterns self) df_columns).
Proof. apply find_matching_columns_spec. Qed.

Lemma find_matching_columns_greedy_witness :
  find_matching_columns (E:=literal_re) init ["Cap_Ah"; "Voltage_V"; "Current_A"]
  = Ok (greedy_mapping (E:=literal_re) default_patterns
          ["Cap_Ah"; "Voltage_V"; "Current_A"]).
Proof.
  apply (find_matching_columns_greedy (E:=literal_re) init).
  - apply (bool_decide_unpack _). vm_compute. exact I.
  - apply (bool_decide_unpack _). vm_compute. exact I.
Defined.

(** C2: in a mapping returned by [find_matching_columns] no column is the
    value of two features. *)
Theorem find_matching_columns_injective {E : Re}
    (self : BatteryFeatureMapper) (df_columns : list string)
    (mapping : dict string) :
  find_matching_columns self df_columns = Ok mapping ->
  NoDup (values mapping) /\
  forall feature1 feature2 col,
    dict_get feature1 mapping = Some col ->
    dict_get feature2 mapping = Some col ->
    feature1 = feature2.
Proof.
  intros (_ & Hv & _)%find_matching_columns_inv. split; [done|].
  intros f1 f2 col H1%dict_get_Some H2%dict_get_Some.
  apply list_elem_of_lookup in H1 as [i Hi], H2 as [j Hj].
  assert (i = j) as ->.
  { eapply NoDup_lookup; [exact Hv | |]; unfold values;
      rewrite list_lookup_fmap; [by rewrite Hi | by rewrite Hj]. }
  congruence.
Qed.

Lemma find_matching_columns_injective_witness :
  NoDup (values [("capacity", "Cap_Ah"); ("voltage", "Voltage_V");
                 ("current", "Current_A")]).
Proof.
  apply (find_matching_columns_injective (E:=literal_re) init
           ["Cap_Ah"; "Voltage_V"; "Current_A"]).
  vm_compute. reflexivity.
Defined.

(** C3: every value of a mapping returned by [find_matching_columns] is one
    of the input columns. *)
Theorem find_matching_columns_values {E : Re}
    (self : BatteryFeatureMapper) (df_columns : list string)
    (mapping : dict string) :
  find_matching_columns self df_columns = Ok mapping ->
  forall col, col ∈ values mapping -> col ∈ df_columns.
Proof.
  intros (_ & _ & Hj)%find_matching_columns_inv col Hcol.
  apply list_elem_of_fmap in Hcol as [[f c] [-> Hin]].
  by apply (Hj f c).
Qed.

Lemma find_matching_columns_values_witness :
  Forall (fun col => col ∈ ["pack_volt"; "T_batt"; "notes"])
    (values [("voltage", "pack_volt"); ("temperature", "T_batt")]).
Proof.
  apply Forall_forall.
  apply (find_matching_columns_values (E:=literal_re) init).
  vm_compute. reflexivity.
Defined.

(** C4 as stated fails: on ["t_batt"; "temp"] the temperature feature is not
    bound to "t_batt". *)
Lemma temperature_not_bound_to_t_batt :
  ~ exists mapping,
      find_matching_columns (E:=literal_re) init ["t_batt"; "temp"] = Ok mapping /\
      dict_get "temperature" mapping = Some "t_batt".
Proof.
  intros (mapping & Hfind & Hget).
  assert (Hrun : find_matching_columns (E:=literal_re) init ["t_batt"; "temp"]
                 = Ok [("temperature", "temp")]) by (vm_compute; reflexivity).
  rewrite Hrun in Hfind. injection Hfind as <-.
  assert (Hne : dict_get "temperature" [("temperature", "temp")] <> Some "t_batt")
    by (apply (bool_decide_unpack _); vm_compute; exact I).
  exact (Hne Hget).
Qed.

(** C4 (amended): with the built-in patterns, on the columns
    ["t_batt"; "temp"] the temperature feature is bound to "temp", because
    the pattern [temp] is declared before [t_batt]; "t_batt" is left
    unconsumed and no other feature is bound. *)
Theorem temperature_binds_first_pattern {E : Re} :
  re_literal_law E ->
  find_matching_columns init ["t_batt"; "temp"] = Ok [("temperature", "temp")].
Proof.
  intros HE. rewrite (find_matching_columns_literal HE) by done.
  by vm_compute.
Qed.

Lemma temperature_binds_first_pattern_witness :
  find_matching_columns (E:=literal_re) init ["t_batt"; "temp"]
  = Ok [("temperature", "temp")].
Proof.
  apply (temperature_binds_first_pattern (E:=literal_re)).
  intros p Hp. exists p. split; [|done]. cbn. by rewrite Hp.
Defined.

(** C9: [add_custom_pattern] makes the given list the feature's pattern list;
    whatever the feature had before is gone, so a later binding of that
    feature comes from one of the new patterns.  From the built-in registry:
    columns containing "capacity" bind the capacity feature, and after
    [add_custom_pattern "capacity" ["foo"]] columns without "foo" leave it
    unbound. *)
Theorem add_custom_pattern_overwrites {E : Re} :
  (forall self feature_name patterns,
      dict_get feature_name
        (feature_patterns (add_custom_pattern self feature_name patterns))
      = Some patterns) /\
  (forall self feature_name patterns df_columns mapping col,
      dict_wf (feature_patterns self) ->
      find_matching_columns (add_custom_pattern self feature_name patterns)
        df_columns = Ok mapping ->
      dict_get feature_name mapping = Some col ->
      exists pattern, pattern ∈ patterns /\ contains_match pattern col = true) /\
  (re_literal_law E ->
   forall col df_columns,
      ascii_columns (col :: df_columns) = true ->
      icontains "capacity" col = true ->
      exists mapping,
        find_matching_columns init (col :: df_columns) = Ok mapping /\
        dict_get "capacity" mapping = Some col) /\
  (re_literal_law E ->
   forall df_columns,
      ascii_columns df_columns = true ->
      Forall (fun col => icontains "foo" col = false) df_columns ->
      exists mapping,
        find_matching_columns (add_custom_pattern init "capacity" ["foo"])
          df_columns = Ok mapping /\
        dict_get "capacity" mapping = None).
Proof.
  split_and!.
  - intros. apply dict_get_set_eq.
  - intros self name patterns cols mapping col Hwf Hfind Hget.
    eapply find_matching_columns_justified in Hget
      as (ps & p & Hps & Hp & Hm & _); [ | | exact Hfind].
    + cbn in Hps. rewrite dict_get_set_eq in Hps. injection Hps as <-.
      by exists p.
    + by apply dict_wf_set.
  - intros HE col cols Hascii Hcap.
    rewrite find_matching_columns_spec;
      [ | apply default_patterns_wf
        | by apply literal_patterns_compile ].
    eexists. split; [done|].
    apply greedy_mapping_head.
    rewrite (contains_match_literal HE); [done | done |].
    by apply andb_prop in Hascii as [? _].
  - intros HE cols Hascii Hfoo.
    set (self := add_custom_pattern init "capacity" ["foo"]).
    assert (Hwf : dict_wf (feature_patterns self))
      by (apply dict_wf_set, default_patterns_wf).
    assert (Hlit : literal_patterns (feature_patterns self) = true)
      by (by apply literal_patterns_set).
    rewrite find_matching_columns_spec;
      [ | done | by apply literal_patterns_compile ].
    eexists. split; [done|].
    destruct (dict_get "capacity" _) as [col|] eqn:Hget; [|done].
    eapply (find_matching_columns_justified self cols) in Hget
      as (ps & p & Hps & Hp & Hm & Hcol); [ | done | ]; cycle 1.
    { apply find_matching_columns_spec;
        [done | by apply literal_patterns_compile]. }
    cbn in Hps. injection Hps as <-.
    apply list_elem_of_singleton in Hp as ->.
    rewrite (contains_match_literal HE) in Hm; [ | done | ].
    + rewrite Forall_forall in Hfoo. by rewrite (Hfoo col Hcol) in Hm.
    + unfold ascii_columns in Hascii. rewrite forallb_forall in Hascii.
      by apply Hascii, list_elem_of_In.
Qed.

Lemma add_custom_pattern_overwrites_witness :
  (exists pattern,
      pattern ∈ ["cap"; "ah"] /\
      contains_match (E:=literal_re) pattern "Cap_Ah" = true) /\
  (exists mapping,
      find_matching_columns (E:=literal_re) init
        ["Discharge_Capacity"; "capacity_ah"] = Ok mapping /\
      dict_get "capacity" mapping = Some "Discharge_Capacity") /\
  (exists mapping,
      find_matching_columns (E:=literal_re)
        (add_custom_pattern init "capacity" ["foo"])
        ["Discharge_Capacity"; "capacity_ah"] = Ok mapping /\
      dict_get "capacity" mapping = None).
Proof.
  destruct (add_custom_pattern_overwrites (E:=literal_re))
    as (_ & Hnew & Hbefore & Hafter).
  assert (HE : re_literal_law literal_re).
  { intros p Hp. exists p. split; [|done]. cbn. by rewrite Hp. }
  split_and!.
  - apply (Hnew init "capacity" ["cap"; "ah"] ["Cap_Ah"; "Volt"]
             [("capacity", "Cap_Ah"); ("voltage", "Volt")] "Cap_Ah").
    + apply (bool_decide_unpack _). vm_compute. exact I.
    + vm_compute. reflexivity.
    + vm_compute. reflexivity.
  - apply (Hbefore HE); vm_compute; reflexivity.
  - apply (Hafter HE); [vm_compute; reflexivity|].
    repeat constructor.
Defined.

(** ** Extraction *)

Import outcome examples.






(** ** Missing values *)

(** C8: with a strategy that is none of "mean", "median", "drop",
    "forward_fill" and "backward_fill", [handle_missing_values] raises
    nothing and returns the very table that the strategy "mean" returns on
    the same input; it prints the warning about the unknown strategy before
    the usual report. *)
Theorem handle_missing_values_fallback {N : Numeric}
    (self : BatteryFeatureMapper) (df : ref) (strategy : string)
    (w : world) (frame : pd.DataFrame) :
  heap w !! df = Some frame ->
  strategy ∉ known_strategies ->
  exists df_clean w_fallback w_mean table,
    handle_missing_values self df strategy w = (Ok df_clean, w_fallback) /\
    handle_missing_values self df "mean" w = (Ok df_clean, w_mean) /\
    heap w_fallback = heap w_mean /\
    heap w_fallback !! df_clean = Some table /\
    table = pd.frame_fillna (pd.frame_stat np_mean frame) frame /\
    stdout w_mean = stdout w ++ report "mean" frame table /\
    stdout w_fallback =
      stdout w ++ WarningUnknownStrategy strategy :: report strategy frame table.
Proof.
  intros Hdf Hunknown.
  assert (Hclean : cleaned strategy frame = cleaned "mean" frame).
  { unfold cleaned, known_strategies in *.
    rewrite !elem_of_cons, elem_of_nil in Hunknown.
    repeat case_decide; try done; intuition congruence. }
  eexists _, _, _, _. split_and!.
  - by apply handle_missing_values_run.
  - rewrite (handle_missing_values_run self df "mean" w frame Hdf).
    by rewrite <- Hclean.
  - done.
  - apply lookup_insert_eq.
  - by rewrite Hclean.
  - cbn [stdout]. by rewrite Hclean.
  - cbn [stdout]. unfold warning.
    by rewrite bool_decide_eq_false_2 by done.
Qed.

Lemma handle_missing_values_fallback_witness :
  exists df_clean w_fallback w_mean,
    handle_missing_values battery_feature_mapper.init
      1%positive "bogus" world0 = (Ok df_clean, w_fallback) /\
    handle_missing_values battery_feature_mapper.init
      1%positive "mean" world0 = (Ok df_clean, w_mean) /\
    heap w_fallback = heap w_mean /\
    heap w_fallback !! df_clean =
      Some [ ("Voltage_V", @pd.Float64 Z_stats [Some 37; Some 39; Some 41]%Z);
             ("Cap_Ah", @pd.Float64 Z_stats [Some 2; Some 3; Some 2]%Z);
             ("notes", @pd.Object Z_stats [Some "ok"; None; None]) ].
Proof.
  destruct (handle_missing_values_fallback
              battery_feature_mapper.init 1%positive "bogus" world0 cells)
    as (df_clean & w1 & w2 & table & H1 & H2 & Hheap & Htable & -> & _).
  - reflexivity.
  - apply (bool_decide_unpack _). vm_compute. exact I.
  - exists df_clean, w1, w2. split_and!; [done | done | done |].
    rewrite Htable. vm_compute. reflexivity.
Defined.

(** C10: [handle_missing_values] leaves the heap it is given as it was: every
    object, the input table among them, holds after the call what it held
    before; the table it returns is a new object. *)
Theorem handle_missing_values_keeps_input {N : Numeric}
    (self : BatteryFeatureMapper) (df : ref) (strategy : string) (w : world) :
  (forall r frame,
      heap w !! r = Some frame ->
      heap (handle_missing_values self df strategy w).2 !! r = Some frame) /\
  (forall frame,
      heap w !! df = Some frame ->
      exists df_clean w',
        handle_missing_values self df strategy w = (Ok df_clean, w') /\
        heap w' !! df = Some frame /\
        heap w !! df_clean = None /\
        is_Some (heap w' !! df_clean)).
Proof.
  split.
  - intros r frame Hr.
    by eapply lookup_weaken; [|apply handle_missing_values_read_only].
  - intros frame Hdf. eexists _, _. split_and!.
    + by apply handle_missing_values_run.
    + cbn [heap]. rewrite !lookup_insert_ne; [done | |].
      * intros Heq. by eapply fresh_ref_ne.
      * intros Heq. eapply (fresh_ref_ne (<[_ := frame]> (heap w)) df);
          [|by symmetry].
        rewrite lookup_insert_ne; [by eexists|].
        intros Heq'. by eapply fresh_ref_ne.
    + apply not_elem_of_dom. intros Hin.
      apply (is_fresh (dom (<[fresh (dom (heap w)) := frame]> (heap w)))).
      rewrite dom_insert_L in Hin |- *. apply elem_of_union. by right.
    + cbn [heap]. rewrite lookup_insert_eq. by eexists.
Qed.

Lemma handle_missing_values_keeps_input_witness :
  heap (handle_missing_values battery_feature_mapper.init
          1%positive "drop" world0).2 !! 1%positive = Some cells.
Proof.
  apply (handle_missing_values_keeps_input
           battery_feature_mapper.init 1%positive "drop" world0).
  reflexivity.
Defined.

(** ** Loading *)

Import os_path data_loader.

(** C7: a path whose extension, in lower case, is none of .csv, .xlsx, .xls,
    .parquet and .json makes [load_dataset] raise the error for unsupported
    formats, which carries that extension; with a path that ends in .tsv
    after a character of the file name the error carries ".tsv". *)
Theorem load_dataset_unsupported {N : Numeric} {R : Readers}
    (self : BatteryDataLoader) (kw : kwargs) (w : world) :
  (forall file_path,
      let file_ext := lower (splitext file_path).2 in
      file_ext ∉ [".csv"; ".xlsx"; ".xls"; ".parquet"; ".json"] ->
      load_dataset self file_path kw w
      = (Raise (ValueError ("Unsupported file format: " +:+ file_ext)), w)) /\
  (forall stem c,
      c <> "."%char -> c <> "/"%char ->
      load_dataset self (stem +:+ String c ".tsv") kw w
      = (Raise (ValueError "Unsupported file format: .tsv"), w)).
Proof.
  assert (Hgen : forall file_path,
    lower (splitext file_path).2 ∉ [".csv"; ".xlsx"; ".xls"; ".parquet"; ".json"] ->
    load_dataset self file_path kw w
    = (Raise (ValueError ("Unsupported file format: "
                          +:+ lower (splitext file_path).2)), w)).
  { intros file_path Hext. unfold load_dataset.
    rewrite !elem_of_cons, elem_of_nil in Hext.
    rewrite decide_False by intuition.
    rewrite bool_decide_eq_false_2
      by (rewrite !elem_of_cons, elem_of_nil; intuition).
    rewrite !decide_False by intuition. done. }
  split; [exact Hgen|].
  intros stem c Hc1 Hc2.
  assert (Hsplit : splitext (stem +:+ String c ".tsv")
                   = (stem +:+ String c "", ".tsv"))
    by (by apply splitext_suffix).
  rewrite Hgen; rewrite Hsplit; [done|].
  apply (bool_decide_unpack _). vm_compute. exact I.
Qed.

Lemma load_dataset_unsupported_witness :
  load_dataset (R:=no_files) data_loader.init "data/cells.tsv" () world0
  = (Raise (ValueError "Unsupported file format: .tsv"), world0).
Proof.
  apply (proj2 (load_dataset_unsupported (R:=no_files) data_loader.init ()
                  world0) "data/cell" "s"%char); discriminate.
Defined.

(* ================================================================== *)
(** * Further properties of the code *)

(** ** More on the matcher *)

Section MatcherMore.
Context {E : Re}.
Implicit Types (m : dict string) (cols : list string).

Lemma for_feature_extends items cols m st' :
  for_feature items cols (locals_of m) = Ok st' ->
  exists tail, st' = locals_of (m ++ tail) /\ sublist (keys tail) (keys items).
Proof.
  revert m. induction items as [|[feature patterns] rest IH]; intros m;
    cbn [for_feature].
  - intros [= <-]. exists []. by rewrite app_nil_r.
  - destruct (for_pattern feature patterns cols (locals_of m)) as [st1|] eqn:Hp;
      [|done]. cbn [result_bind]. intros Hrest.
    apply for_pattern_step in Hp as [->|(p & col & _ & _ & _ & ->)].
    + destruct (IH _ Hrest) as (tail & -> & Hsub). exists tail.
      split; [done|]. unfold keys in *. rewrite fmap_cons.
      by apply sublist_cons.
    + destruct (IH _ Hrest) as (tail & -> & Hsub).
      exists ((feature, col) :: tail). rewrite <- app_assoc.
      split; [done|]. unfold keys in *. rewrite !fmap_cons.
      by apply sublist_skip.
Qed.

Lemma greedy_from_values specs cols m col :
  col ∈ values m -> col ∈ values (greedy_from specs cols m).
Proof.
  intros Hcol. destruct (greedy_from_extends specs cols m) as [tail ->].
  unfold values. rewrite fmap_app. apply elem_of_app. by left.
Qed.

Lemma greedy_from_keys specs cols m feature :
  feature ∈ keys m -> feature ∈ keys (greedy_from specs cols m).
Proof.
  intros Hf. destruct (greedy_from_extends specs cols m) as [tail ->].
  unfold keys. rewrite fmap_app. apply elem_of_app. by left.
Qed.

Lemma first_pattern_None m patterns cols pattern col :
  first_pattern m patterns cols = None ->
  pattern ∈ patterns -> col ∈ cols ->
  contains_match pattern col = true -> col ∈ values m.
Proof.
  induction patterns as [|p rest IH]; cbn [first_pattern].
  - by intros _ ?%elem_of_nil.
  - destruct (first_column m p cols) as [c|] eqn:Hfirst; [done|].
    intros Hrest [->|Hin]%elem_of_cons Hcol Hmatch; [|by apply IH].
    unfold first_column in Hfirst.
    apply list_elem_of_In in Hcol.
    pose proof (find_none _ _ Hfirst _ Hcol) as Hel.
    unfold eligible in Hel. rewrite Hmatch in Hel. cbn in Hel.
    apply bool_decide_eq_false in Hel. by apply dec_stable.
Qed.

Lemma greedy_from_exhausted specs cols m feature patterns pattern col :
  (feature, patterns) ∈ specs ->
  feature ∉ keys (greedy_from specs cols m) ->
  pattern ∈ patterns -> col ∈ cols ->
  contains_match pattern col = true ->
  col ∈ values (greedy_from specs cols m).
Proof.
  revert m. induction specs as [|[f ps] rest IH]; intros m.
  - by intros ?%elem_of_nil.
  - intros [[= <- <-]|Hin]%elem_of_cons Habsent Hp Hcol Hmatch;
      cbn [greedy_from] in *; [|by eapply IH].
    destruct (first_pattern m patterns cols) as [c|] eqn:Hfirst.
    + destruct Habsent. apply greedy_from_keys. unfold keys.
      rewrite fmap_app. apply elem_of_app. right. by left.
    + apply greedy_from_values. by eapply first_pattern_None.
Qed.

Lemma for_pattern_app feature pre post cols m :
  Forall (fun pattern => is_Some (re_compile pattern)) pre ->
  feature ∉ keys m ->
  first_pattern m pre cols = None ->
  for_pattern feature (pre ++ post) cols (locals_of m)
  = for_pattern feature post cols (locals_of m).
Proof.
  intros Hpre Hfresh. apply dict_mem_false in Hfresh.
  induction Hpre as [|p pre [regex Hre] _ IH]; [done|].
  cbn [first_pattern app for_pattern]. rewrite Hre.
  rewrite (for_col_spec _ _ _ _ _ Hre), Hfresh.
  destruct (first_column m p cols); [done|].
  cbn [locals_of matches]. rewrite Hfresh. apply IH.
Qed.

Lemma for_feature_app before after cols st :
  for_feature (before ++ after) cols st
  = result_bind (for_feature before cols st) (for_feature after cols).
Proof.
  revert st. induction before as [|[f ps] before IH]; intros st; [done|].
  cbn [app for_feature].
  destruct (for_pattern f ps cols st); cbn [result_bind]; [apply IH | done].
Qed.

Lemma find_matching_columns_keys_sublist self cols mapping :
  find_matching_columns self cols = Ok mapping ->
  sublist (keys mapping) (keys (feature_patterns self)).
Proof.
  unfold find_matching_columns.
  destruct (for_feature _ _ _) as [st'|] eqn:Hfor; [|done].
  cbn [result_bind]. intros [= <-].
  change {| matches := []; used_columns := ∅ |} with (locals_of []) in Hfor.
  by apply for_feature_extends in Hfor as (tail & -> & Hsub).
Qed.
End MatcherMore.

(** X1: the features of a returned mapping are features of the registry, in
    the registry's order, each at most once. *)
Theorem find_matching_columns_keys_ordered {E : Re}
    (self : BatteryFeatureMapper) (df_columns : list string)
    (mapping : dict string) :
  find_matching_columns self df_columns = Ok mapping ->
  sublist (keys mapping) (keys (feature_patterns self)) /\ NoDup (keys mapping).
Proof.
  intros Hfind. split.
  - by eapply find_matching_columns_keys_sublist.
  - by apply find_matching_columns_inv in Hfind as (Hk & _).
Qed.

Lemma find_matching_columns_keys_ordered_witness :
  sublist ["voltage"; "temperature"]
    (keys (feature_patterns battery_feature_mapper.init)) /\
  NoDup ["voltage"; "temperature"].
Proof.
  apply (find_matching_columns_keys_ordered (E:=literal_re)
           battery_feature_mapper.init ["T_batt"; "pack_volt"; "notes"]
           [("voltage", "pack_volt"); ("temperature", "T_batt")]).
  vm_compute. reflexivity.
Defined.

(** X2: in a returned mapping the column of a feature is an input column in
    which one of the patterns registered for that very feature is found. *)
Theorem find_matching_columns_sound {E : Re}
    (self : BatteryFeatureMapper) (df_columns : list string)
    (mapping : dict string) (feature col : string) :
  dict_wf (feature_patterns self) ->
  find_matching_columns self df_columns = Ok mapping ->
  dict_get feature mapping = Some col ->
  exists patterns pattern,
    dict_get feature (feature_patterns self) = Some patterns /\
    pattern ∈ patterns /\ contains_match pattern col = true /\
    col ∈ df_columns.
Proof. apply find_matching_columns_justified. Qed.

Lemma find_matching_columns_sound_witness :
  exists patterns pattern,
    dict_get "voltage" default_patterns = Some patterns /\
    pattern ∈ patterns /\
    contains_match (E:=literal_re) pattern "pack_volt" = true /\
    "pack_volt" ∈ ["T_batt"; "pack_volt"; "notes"].
Proof.
  apply (find_matching_columns_sound (E:=literal_re)
           battery_feature_mapper.init ["T_batt"; "pack_volt"; "notes"]
           [("voltage", "pack_volt"); ("temperature", "T_batt")]).
  - apply (bool_decide_unpack _). vm_compute. exact I.
  - vm_compute. reflexivity.
  - vm_compute. reflexivity.
Defined.

(** X3: a registered feature is left out of the mapping only when every
    input column in which one of its patterns is found is bound to another
    feature. *)
Theorem find_matching_columns_exhaustive {E : Re}
    (self : BatteryFeatureMapper) (df_columns : list string)
    (mapping : dict string) (feature : string) (patterns : list string)
    (pattern col : string) :
  dict_wf (feature_patterns self) ->
  patterns_compile (feature_patterns self) ->
  find_matching_columns self df_columns = Ok mapping ->
  (feature, patterns) ∈ feature_patterns self ->
  dict_get feature mapping = None ->
  pattern ∈ patterns -> col ∈ df_columns ->
  contains_match pattern col = true ->
  col ∈ values mapping.
Proof.
  intros Hwf Hok Hfind Hin Habsent Hp Hcol Hmatch.
  rewrite find_matching_columns_spec in Hfind by done.
  injection Hfind as <-. unfold greedy_mapping in *.
  eapply greedy_from_exhausted; [done | | done | done | done].
  by apply dict_get_None.
Qed.

Lemma find_matching_columns_exhaustive_witness :
  "ah" ∈ values [("capacity", "ah")].
Proof.
  apply (find_matching_columns_exhaustive (E:=literal_re)
           (add_custom_pattern battery_feature_mapper.init "charge" ["ah"])
           ["ah"] [("capacity", "ah")] "charge" ["ah"] "ah" "ah").
  - apply (bool_decide_unpack _). vm_compute. exact I.
  - apply (bool_decide_unpack _). vm_compute. exact I.
  - vm_compute. reflexivity.
  - apply (bool_decide_unpack _). vm_compute. exact I.
  - vm_compute. reflexivity.
  - by left.
  - by left.
  - vm_compute. reflexivity.
Defined.

(** X4: when no pattern of the registry is found in any input column, in
    particular when there is no column, the mapping is empty. *)
Theorem find_matching_columns_no_match {E : Re}
    (self : BatteryFeatureMapper) (df_columns : list string) :
  dict_wf (feature_patterns self) ->
  patterns_compile (feature_patterns self) ->
  (forall feature patterns pattern col,
      (feature, patterns) ∈ feature_patterns self -> pattern ∈ patterns ->
      col ∈ df_columns -> contains_match pattern col = false) ->
  find_matching_columns self df_columns = Ok [].
Proof.
  intros Hwf Hok Hnone.
  destruct (find_matching_columns self df_columns) as [mapping|e] eqn:Hfind;
    [|by rewrite find_matching_columns_spec in Hfind].
  destruct mapping as [|[f c] mapping]; [done|].
  apply find_matching_columns_inv in Hfind as (_ & _ & Hj).
  destruct (Hj f c) as (Hc & ps & p & Hps & Hp & Hm); [by left|].
  by rewrite (Hnone f ps p c) in Hm.
Qed.

Lemma find_matching_columns_no_match_witness :
  find_matching_columns (E:=literal_re) battery_feature_mapper.init [] = Ok [].
Proof.
  apply (find_matching_columns_no_match (E:=literal_re)
           battery_feature_mapper.init []).
  - apply (bool_decide_unpack _). vm_compute. exact I.
  - apply (bool_decide_unpack _). vm_compute. exact I.
  - by intros ? ? ? ? _ _ ?%elem_of_nil.
Defined.

(** X5: a pattern that [re.compile] rejects makes [find_matching_columns]
    raise [re.error] for it as soon as the scan reaches it: the features
    before are done, and no earlier pattern of its feature has found an
    eligible column. *)
Theorem find_matching_columns_bad_pattern {E : Re}
    (self : BatteryFeatureMapper) (df_columns : list string)
    (before after : dict (list string)) (feature : string)
    (pre post : list string) (pattern : string) :
  feature_patterns self = before ++ (feature, pre ++ pattern :: post) :: after ->
  dict_wf (feature_patterns self) ->
  patterns_compile before ->
  Forall (fun p => is_Some (re_compile p)) pre ->
  re_compile pattern = None ->
  first_pattern (greedy_mapping before df_columns) pre df_columns = None ->
  find_matching_columns self df_columns = Raise (re_error pattern).
Proof.
  intros Hreg Hwf Hbefore Hpre Hbad Hnone.
  unfold find_matching_columns. rewrite Hreg in *.
  unfold dict_wf, keys in Hwf. rewrite fmap_app, fmap_cons in Hwf.
  apply NoDup_app in Hwf as (Hwf1 & Hdisj & Hwf2).
  change {| matches := []; used_columns := ∅ |} with (locals_of []).
  rewrite for_feature_app, for_feature_spec;
    [ | done | done | by intros ? _ ?%elem_of_nil ].
  cbn [result_bind for_feature].
  rewrite for_pattern_app; [ | done | | done ].
  - cbn [for_pattern]. by rewrite Hbad.
  - intros Hin.
    assert (Hsub : keys (greedy_from before df_columns []) ⊆ keys before).
    { destruct (for_feature_extends before df_columns []
                  (locals_of (greedy_from before df_columns [])))
        as (tail & Heq & Hsub).
      - by apply for_feature_spec; [| |intros ? _ ?%elem_of_nil].
      - injection Heq as Heq _. rewrite Heq. cbn.
        by apply sublist_subseteq. }
    apply (Hdisj feature); [by apply Hsub | by left].
Qed.

Lemma find_matching_columns_bad_pattern_witness :
  find_matching_columns (E:=literal_re)
    (add_custom_pattern battery_feature_mapper.init "cycle" ["cyc"; "n(o"])
    ["Voltage"; "Temp"] = Raise (re_error "n(o").
Proof.
  apply (find_matching_columns_bad_pattern (E:=literal_re)
           (add_custom_pattern battery_feature_mapper.init "cycle"
              ["cyc"; "n(o"])
           ["Voltage"; "Temp"] default_patterns [] "cycle" ["cyc"] []).
  - vm_compute. reflexivity.
  - apply (bool_decide_unpack _). vm_compute. exact I.
  - apply (bool_decide_unpack _). vm_compute. exact I.
  - apply (bool_decide_unpack _). vm_compute. exact I.
  - vm_compute. reflexivity.
  - vm_compute. reflexivity.
Defined.

(** ** The registry *)

Section RegistryMore.
Context {V : Type}.
Implicit Types (d : dict V) (k : string) (v : V).

Lemma dict_set_set k v1 v2 d :
  dict_set k v2 (dict_set k v1 d) = dict_set k v2 d.
Proof.
  induction d as [|[k' v'] d IH]; cbn [dict_set].
  - by rewrite decide_True.
  - case_decide; cbn [dict_set].
    + by rewrite decide_True.
    + rewrite decide_False by done. by rewrite IH.
Qed.
End RegistryMore.

(** X6: in every state of a mapper the registry is a dictionary,
    [standard_features] lists its keys in order, and the six built-in
    features are still its first six keys, in their original order: custom
    features only ever come after them. *)
Theorem reachable_registry (self : BatteryFeatureMapper) :
  reachable self ->
  dict_wf (feature_patterns self) /\
  standard_features self = keys (feature_patterns self) /\
  keys default_patterns `prefix_of` keys (feature_patterns self).
Proof.
  induction 1 as [|self name patterns _ (Hwf & Hstd & Hpre)].
  - split_and!; [apply default_patterns_wf | done | done].
  - split_and!.
    + by apply dict_wf_set.
    + done.
    + cbn [add_custom_pattern feature_patterns]. rewrite keys_dict_set.
      destruct (dict_mem name (feature_patterns self)); [done|].
      by apply prefix_app_r.
Qed.

Lemma reachable_registry_witness :
  dict_wf (feature_patterns
             (add_custom_pattern battery_feature_mapper.init "cycle" ["cyc"])) /\
  standard_features
    (add_custom_pattern battery_feature_mapper.init "cycle" ["cyc"])
  = keys (feature_patterns
            (add_custom_pattern battery_feature_mapper.init "cycle" ["cyc"])) /\
  keys default_patterns `prefix_of`
    keys (feature_patterns
            (add_custom_pattern battery_feature_mapper.init "cycle" ["cyc"])).
Proof.
  apply (reachable_registry
           (add_custom_pattern battery_feature_mapper.init "cycle" ["cyc"])).
  apply reachable_add, reachable_init.
Defined.

(** X7: [add_custom_pattern] touches one entry: every other feature keeps
    its patterns; a feature that was registered keeps its place in the
    order, a new one goes last. *)
Theorem add_custom_pattern_frame (self : BatteryFeatureMapper)
    (feature_name : string) (patterns : list string) :
  (forall other, other <> feature_name ->
     dict_get other (feature_patterns
                       (add_custom_pattern self feature_name patterns))
     = dict_get other (feature_patterns self)) /\
  (feature_name ∈ keys (feature_patterns self) ->
     standard_features (add_custom_pattern self feature_name patterns)
     = keys (feature_patterns self)) /\
  (feature_name ∉ keys (feature_patterns self) ->
     standard_features (add_custom_pattern self feature_name patterns)
     = keys (feature_patterns self) ++ [feature_name]).
Proof.
  split_and!.
  - intros other Hne. by apply dict_get_set_ne.
  - intros Hin%dict_mem_true. cbn. by rewrite keys_dict_set, Hin.
  - intros Hin%dict_mem_false. cbn. by rewrite keys_dict_set, Hin.
Qed.

Lemma add_custom_pattern_frame_witness :
  standard_features
    (add_custom_pattern battery_feature_mapper.init "voltage" ["u_cell"])
  = keys default_patterns /\
  standard_features
    (add_custom_pattern battery_feature_mapper.init "cycle" ["cyc"])
  = keys default_patterns ++ ["cycle"].
Proof.
  split.
  - apply (add_custom_pattern_frame battery_feature_mapper.init "voltage"
             ["u_cell"]).
    apply (bool_decide_unpack _). vm_compute. exact I.
  - apply (add_custom_pattern_frame battery_feature_mapper.init "cycle"
             ["cyc"]).
    apply (bool_decide_unpack _). vm_compute. exact I.
Defined.

(** X8: registering a feature twice is registering it once with the second
    pattern list. *)
Theorem add_custom_pattern_last_wins (self : BatteryFeatureMapper)
    (feature_name : string) (patterns1 patterns2 : list string) :
  add_custom_pattern (add_custom_pattern self feature_name patterns1)
    feature_name patterns2
  = add_custom_pattern self feature_name patterns2.
Proof.
  unfold add_custom_pattern. cbn [feature_patterns].
  by rewrite dict_set_set.
Qed.

(** X9: [get_available_features] returns the set of the keys of the mapping
    that [find_matching_columns] returns, and raises what it raises; the set
    holds registered features only, and no more features than there are
    columns. *)
Theorem get_available_features_spec {E : Re}
    (self : BatteryFeatureMapper) (df_columns : list string) :
  (forall e, find_matching_columns self df_columns = Raise e ->
     get_available_features self df_columns = Raise e) /\
  (forall mapping, find_matching_columns self df_columns = Ok mapping ->
     get_available_features self df_columns = Ok (list_to_set (keys mapping)) /\
     (forall feature,
        feature ∈ (list_to_set (keys mapping) : gset string) ->
        feature ∈ keys (feature_patterns self)) /\
     size (list_to_set (keys mapping) : gset string) <= length df_columns).
Proof.
  unfold get_available_features. split.
  - by intros e ->.
  - intros mapping Hfind. rewrite Hfind. split_and!; [done | |].
    + intros f Hf%elem_of_list_to_set.
      apply find_matching_columns_keys_sublist in Hfind.
      by eapply sublist_subseteq.
    + apply find_matching_columns_inv in Hfind as (Hk & Hv & Hj).
      rewrite size_list_to_set by done.
      unfold keys, values in *.
      rewrite length_fmap, <- (length_fmap snd).
      apply submseteq_length, NoDup_submseteq; [done|].
      intros c ([f c'] & -> & Hin)%list_elem_of_fmap.
      by apply (Hj f c').
Qed.

Lemma get_available_features_spec_witness :
  get_available_features (E:=literal_re) battery_feature_mapper.init
    ["T_batt"; "pack_volt"; "notes"]
  = Ok (list_to_set ["voltage"; "temperature"]) /\
  size (list_to_set ["voltage"; "temperature"] : gset string) <= 3.
Proof.
  destruct (proj2 (get_available_features_spec (E:=literal_re)
                     battery_feature_mapper.init
                     ["T_batt"; "pack_volt"; "notes"])
              [("voltage", "pack_volt"); ("temperature", "T_batt")])
    as (Hget & _ & Hsize).
  - vm_compute. reflexivity.
  - split; [exact Hget | exact Hsize].
Defined.

(** ** More on extraction *)

Section ExtractMore.
Context {N : Numeric}.
Import outcome.
Implicit Types (frame : pd.DataFrame) (mapping : dict string).

Lemma column_warnings_present frame mapping :
  (forall col, col ∈ values mapping -> col ∈ keys frame) ->
  column_warnings frame mapping = [].
Proof.
  unfold values. induction mapping as [|[f c] mapping IH]; intros Hall;
    [done|].
  rewrite column_warnings_cons, IH.
  - assert (Hc : dict_mem c frame = true).
    { apply dict_mem_true, Hall. rewrite fmap_cons. by left. }
    by rewrite Hc.
  - intros col Hcol. apply Hall. rewrite fmap_cons. by right.
Qed.

End ExtractMore.

Section ExtractDefault.
Context {E : Re} {N : Numeric}.

Lemma extract_features_None_raise self df w (frame : pd.DataFrame) e :
  heap w !! df = Some frame ->
  find_matching_columns self (keys frame) = Raise e ->
  extract_features self df None w = (Raise e, w).
Proof.
  intros Hdf Hfind.
  assert (Hcols : pdm.columns_tolist df w = (Ok (keys frame), w)).
  { unfold pdm.columns_tolist. by erewrite bind_ok by by apply deref_run. }
  unfold extract_features.
  rewrite bind_run, (bind_ok _ _ _ _ _ Hcols). unfold lift.
  by rewrite Hfind.
Qed.

Lemma extract_features_None_ok self df w (frame : pd.DataFrame) mapping :
  heap w !! df = Some frame ->
  find_matching_columns self (keys frame) = Ok mapping ->
  extract_features self df None w = extract_features self df (Some mapping) w.
Proof.
  intros Hdf Hfind.
  assert (Hcols : pdm.columns_tolist df w = (Ok (keys frame), w)).
  { unfold pdm.columns_tolist. by erewrite bind_ok by by apply deref_run. }
  unfold extract_features.
  rewrite bind_run, (bind_ok _ _ _ _ _ Hcols). unfold lift.
  by rewrite Hfind.
Qed.
End ExtractDefault.

(** X10: without a mapping, [extract_features] matches the columns of the
    table itself: it raises what the matcher raises and touches nothing
    then; otherwise it does what it does with that mapping, every matched
    feature becomes a column holding the cells of its source column, and no
    column warning is printed. *)
Theorem extract_features_default_mapping {E : Re} {N : Numeric}
    (self : BatteryFeatureMapper) (df : ref) (w : world)
    (frame : pd.DataFrame) :
  heap w !! df = Some frame -> dict_wf frame ->
  (forall e, find_matching_columns self (keys frame) = Raise e ->
     extract_features self df None w = (Raise e, w)) /\
  (forall mapping, find_matching_columns self (keys frame) = Ok mapping ->
     extract_features self df None w
     = extract_features self df (Some mapping) w /\
     exists result_df w' table,
       extract_features self df None w = (Ok result_df, w') /\
       heap w' !! result_df = Some table /\
       keys table = keys mapping /\
       (forall feature col, (feature, col) ∈ mapping ->
          is_Some (dict_get col frame) /\
          dict_get feature table = dict_get col frame) /\
       stdout w' = stdout w ++ outcome.missing_report self mapping).
Proof.
  intros Hdf Hwf. split.
  - intros e Hfind. by eapply extract_features_None_raise.
  - intros mapping Hfind.
    assert (Hsame : extract_features self df None w
                    = extract_features self df (Some mapping) w)
      by (by eapply extract_features_None_ok).
    split; [done|]. rewrite Hsame.
    pose proof (find_matching_columns_inv _ _ _ Hfind) as (Hk & _ & Hj).
    assert (Hall : forall col, col ∈ values mapping -> col ∈ keys frame).
    { intros c ([f c'] & -> & Hin)%list_elem_of_fmap. by apply (Hj f c'). }
    eexists _, _, _. split_and!.
    + by apply extract_features_run.
    + apply lookup_insert_eq.
    + rewrite extract_into_wf by done.
      by rewrite extracted_keys, filter_present_all.
    + intros f c Hin. split.
      * destruct (Hj f c Hin) as [Hc%dict_mem_true _].
        unfold dict_mem in Hc. by destruct (dict_get c frame).
      * rewrite extract_into_wf by done. by apply extracted_lookup.
    + cbn [stdout]. by rewrite column_warnings_present.
Qed.

Lemma extract_features_default_mapping_witness :
  exists result_df w' table,
    extract_features (E:=literal_re) battery_feature_mapper.init 1%positive
      None world0 = (Ok result_df, w') /\
    heap w' !! result_df = Some table /\
    keys table = ["capacity"; "voltage"].
Proof.
  destruct (extract_features_default_mapping (E:=literal_re)
              battery_feature_mapper.init 1%positive world0 cells)
    as [_ Hok].
  - reflexivity.
  - apply (bool_decide_unpack _). vm_compute. exact I.
  - destruct (Hok [("capacity", "Cap_Ah"); ("voltage", "Voltage_V")])
      as (_ & result_df & w' & table & Hrun & Htable & Hkeys & _).
    + vm_compute. reflexivity.
    + by exists result_df, w', table.
Defined.






(** ** More on missing values *)

Section FillFacts.
Context {A : Type}.
Implicit Types (d : list (option A)) (last : option A).

Lemma keeps_cells_refl d : keeps_cells d d.
Proof. by split. Qed.

Lemma length_ffill_from last d : length (pd.ffill_from last d) = length d.
Proof.
  revert last. induction d as [|[x|] d IH]; intros last; cbn; [done|..];
    by rewrite IH.
Qed.

Lemma ffill_from_keeps last d : keeps_cells d (pd.ffill_from last d).
Proof.
  split; [apply length_ffill_from|].
  revert last. induction d as [|[y|] d IH]; intros last [|i] x; cbn;
    try done; apply IH.
Qed.

Lemma keeps_cells_reverse d d' :
  keeps_cells d d' -> keeps_cells (reverse d) (reverse d').
Proof.
  intros [Hlen Hcells]. split; [by rewrite !length_reverse|].
  intros i x Hi.
  assert (i < length d) as Hlt.
  { apply lookup_lt_Some in Hi. by rewrite length_reverse in Hi. }
  rewrite reverse_lookup in Hi by done.
  rewrite reverse_lookup by lia. rewrite Hlen. by apply Hcells.
Qed.

Lemma bfill_keeps d : keeps_cells d (pd.bfill d).
Proof.
  unfold pd.bfill. rewrite <- (reverse_involutive d) at 1.
  apply keeps_cells_reverse, ffill_from_keeps.
Qed.

Lemma fill_with_keeps x d : keeps_cells d (pd.fill_with x d).
Proof.
  unfold pd.fill_with. split; [apply length_fmap|].
  intros i y Hi. by rewrite list_lookup_fmap, Hi.
Qed.

(** A gap that forward filling leaves is at the head of the column. *)
Lemma ffill_from_gap last d i :
  pd.ffill_from last d !! i = Some None ->
  last = None /\ forall j, j <= i -> d !! j = Some None.
Proof.
  revert last i. induction d as [|[x|] d IH]; intros last i; cbn; [done|..].
  - destruct i as [|i]; [done|]. cbn. by intros [? _]%IH.
  - destruct i as [|i]; cbn.
    + intros [= ->]. split; [done|]. intros j Hj.
      by replace j with 0 by lia.
    + intros [-> Hgap]%IH. split; [done|].
      intros [|j] Hj; [done|]. cbn. apply Hgap. lia.
Qed.

Lemma ffill_gap d i :
  pd.ffill d !! i = Some None -> forall j, j <= i -> d !! j = Some None.
Proof. by intros [_ ?]%ffill_from_gap. Qed.

(** A gap that backward filling leaves is at the end of the column. *)
Lemma bfill_gap d i :
  pd.bfill d !! i = Some None ->
  forall j, i <= j < length d -> d !! j = Some None.
Proof.
  unfold pd.bfill. intros Hi j [Hij Hj].
  assert (Hlen : length (pd.ffill_from None (reverse d)) = length d)
    by (by rewrite length_ffill_from, length_reverse).
  assert (i < length d) as Hlt.
  { apply lookup_lt_Some in Hi. by rewrite length_reverse, Hlen in Hi. }
  rewrite reverse_lookup in Hi by lia. rewrite Hlen in Hi.
  apply ffill_from_gap in Hi as [_ Hgap].
  specialize (Hgap (length d - S j)).
  rewrite reverse_lookup in Hgap by lia.
  replace (length d - S (length d - S j)) with j in Hgap by lia.
  apply Hgap. lia.
Qed.
End FillFacts.

Section FrameFacts.
Context {N : Numeric}.
Import outcome.
Implicit Types (frame : pd.DataFrame) (s : pd.Series).

Lemma series_keeps_refl s : series_keeps s s.
Proof. destruct s; apply keeps_cells_refl. Qed.

Lemma frame_keeps_fmap (f : string * pd.Series -> string * pd.Series) frame :
  (forall item, (f item).1 = item.1 /\ series_keeps item.2 (f item).2) ->
  frame_keeps frame (f <$> frame).
Proof.
  intros Hf. unfold frame_keeps.
  induction frame as [|item frame IH]; csimpl; constructor; [|done].
  destruct (Hf item) as [Hk Hs]. by split.
Qed.

Lemma frame_fillna_keeps value frame :
  frame_keeps frame (pd.frame_fillna value frame).
Proof.
  apply frame_keeps_fmap. intros [k [d|d]]; cbn.
  - destruct (dict_get k value) as [[x|]|]; cbn;
      (split; [done|]); [apply fill_with_keeps | apply keeps_cells_refl..].
  - split; [done | apply keeps_cells_refl].
Qed.

Lemma frame_fill_keeps (fill : forall A, list (option A) -> list (option A))
    frame :
  (forall A (d : list (option A)), keeps_cells d (fill A d)) ->
  frame_keeps frame (pd.frame_fill fill frame).
Proof.
  intros Hfill. apply frame_keeps_fmap. intros [k [d|d]]; cbn;
    (split; [done | apply Hfill]).
Qed.

Lemma frame_keeps_keys frame frame' :
  frame_keeps frame frame' -> keys frame' = keys frame.
Proof.
  unfold keys. induction 1 as [|[k s] [k' s'] ? ? [Hk _] _ IH]; [done|].
  csimpl. cbn in Hk. by rewrite IH, Hk.
Qed.

Lemma series_keeps_len s s' : series_keeps s s' -> pd.series_len s' = pd.series_len s.
Proof. destruct s, s'; cbn; try done; by intros [? _]. Qed.

Lemma frame_keeps_shape frame frame' :
  frame_keeps frame frame' -> pd.frame_shape frame' = pd.frame_shape frame.
Proof.
  intros Hkeeps. unfold pd.frame_shape.
  rewrite <- (Forall2_length _ _ _ Hkeeps).
  destruct Hkeeps as [|[k s] [k' s'] ? ? [_ Hs] _]; [done|].
  cbn in Hs. by rewrite (series_keeps_len _ _ Hs).
Qed.

Lemma cleaned_keeps strategy frame :
  strategy <> "drop" -> frame_keeps frame (cleaned strategy frame).
Proof.
  intros Hdrop. unfold cleaned. rewrite decide_False by done.
  repeat case_decide;
    first [ apply frame_fillna_keeps
          | apply frame_fill_keeps; intros; apply ffill_from_keeps
          | apply frame_fill_keeps; intros; apply bfill_keeps ].
Qed.

(** Rows kept by [dropna]. *)
Lemma keep_rows_fmap {A B} (f : A -> B) rows (d : list A) :
  pd.keep_rows rows (f <$> d) = f <$> pd.keep_rows rows d.
Proof.
  revert d. induction rows as [|[] rows IH]; intros [|x d]; csimpl;
    try done; by rewrite IH.
Qed.

Lemma series_notna_keep rows s :
  pd.series_notna (pd.series_keep rows s)
  = pd.keep_rows rows (pd.series_notna s).
Proof. destruct s; cbn; by rewrite keep_rows_fmap. Qed.

Lemma keep_rows_all_true rows (bs : list bool) :
  (forall i, rows !! i = Some true -> i < length bs -> bs !! i = Some true) ->
  Forall (fun b => b = true) (pd.keep_rows rows bs).
Proof.
  revert bs. induction rows as [|[] rows IH]; intros [|b bs] Himp; cbn;
    try by constructor.
  - constructor.
    + specialize (Himp 0 eq_refl). cbn in Himp.
      by injection (Himp ltac:(lia)).
    + apply IH. intros i Hi Hlt. apply (Himp (S i)); [done | cbn; lia].
  - apply IH. intros i Hi Hlt. apply (Himp (S i)); [done | cbn; lia].
Qed.

Lemma complete_rows_imply (init : list bool) frame item i :
  item ∈ frame ->
  foldr (fun item rows => zip_with andb (pd.series_notna item.2) rows)
    init frame !! i = Some true ->
  pd.series_notna item.2 !! i = Some true.
Proof.
  revert i. induction frame as [|item' frame IH]; intros i.
  - by intros ?%elem_of_nil.
  - cbn [foldr]. intros Hin Hi.
    apply lookup_zip_with_Some in Hi as (b1 & b2 & Hand & H1 & H2).
    symmetry in Hand. apply andb_prop in Hand as [-> ->].
    apply elem_of_cons in Hin as [->|Hin]; [done | by apply IH].
Qed.

Lemma frame_dropna_no_missing frame :
  pd.frame_isnull_sum (pd.frame_dropna frame) = 0.
Proof.
  unfold pd.frame_isnull_sum, pd.frame_dropna.
  rewrite <- list_fmap_compose.
  assert (Hzero : Forall (fun n => n = 0)
            ((fun item => length (filter (fun b => b = false)
                                    (pd.series_notna item.2))) ∘
             (fun item => (item.1, pd.series_keep (pd.complete_rows frame) item.2))
             <$> frame)).
  { apply Forall_fmap, Forall_forall. intros item Hitem. cbn.
    rewrite series_notna_keep.
    assert (Hall : Forall (fun b => b = true)
              (pd.keep_rows (pd.complete_rows frame) (pd.series_notna item.2))).
    { apply keep_rows_all_true. intros i Hi _.
      by eapply complete_rows_imply. }
    induction Hall as [|b bs -> _ IH]; [done|].
    by rewrite filter_cons_False by done. }
  induction Hzero as [|n ns -> _ IH]; [done|]. by cbn.
Qed.
End FrameFacts.

(** X13: with the strategy "drop" the returned table has no missing cell
    left and the labels of the input, and the last line printed reports the
    missing cells of the input and none after. *)
Theorem handle_missing_values_drop {N : Numeric}
    (self : BatteryFeatureMapper) (df : ref) (w : world)
    (frame : pd.DataFrame) :
  heap w !! df = Some frame ->
  exists df_clean w' table,
    handle_missing_values self df "drop" w = (Ok df_clean, w') /\
    heap w' !! df_clean = Some table /\
    pd.frame_isnull_sum table = 0 /\
    keys table = keys frame /\
    last (stdout w') = Some (MissingValuesCount (pd.frame_isnull_sum frame) 0).
Proof.
  intros Hdf. eexists _, _, _. split_and!.
  - by apply handle_missing_values_run.
  - apply lookup_insert_eq.
  - apply frame_dropna_no_missing.
  - unfold outcome.cleaned, pd.frame_dropna. cbn [decide].
    rewrite decide_True by done. unfold keys.
    rewrite <- list_fmap_compose. by apply list_fmap_ext.
  - cbn [stdout]. rewrite !app_assoc. unfold outcome.report.
    rewrite last_app_cons, !last_cons_cons, last_singleton.
    do 2 f_equal. unfold outcome.cleaned. rewrite decide_True by done.
    apply frame_dropna_no_missing.
Qed.

Lemma handle_missing_values_drop_witness :
  exists df_clean w' table,
    handle_missing_values battery_feature_mapper.init 1%positive "drop" world0
      = (Ok df_clean, w') /\
    heap w' !! df_clean = Some table /\
    pd.frame_isnull_sum table = 0 /\
    last (stdout w') = Some (MissingValuesCount 4 0).
Proof.
  destruct (handle_missing_values_drop battery_feature_mapper.init 1%positive
              world0 cells)
    as (df_clean & w' & table & Hrun & Htable & Hnone & _ & Hlast).
  - reflexivity.
  - by exists df_clean, w', table.
Defined.

(** X14: with every strategy but "drop" the returned table has the labels
    and the shape of the input, and every cell of the input that is not
    missing is in it unchanged: filling never overwrites data. *)
Theorem handle_missing_values_keeps_data {N : Numeric}
    (self : BatteryFeatureMapper) (df : ref) (strategy : string) (w : world)
    (frame : pd.DataFrame) :
  heap w !! df = Some frame -> strategy <> "drop" ->
  exists df_clean w' table,
    handle_missing_values self df strategy w = (Ok df_clean, w') /\
    heap w' !! df_clean = Some table /\
    frame_keeps frame table /\
    keys table = keys frame /\
    pd.frame_shape table = pd.frame_shape frame.
Proof.
  intros Hdf Hdrop. eexists _, _, _. split_and!.
  - by apply handle_missing_values_run.
  - apply lookup_insert_eq.
  - by apply cleaned_keeps.
  - by apply frame_keeps_keys, cleaned_keeps.
  - by apply frame_keeps_shape, cleaned_keeps.
Qed.

Lemma handle_missing_values_keeps_data_witness :
  exists df_clean w' table,
    handle_missing_values battery_feature_mapper.init 1%positive "median"
      world0 = (Ok df_clean, w') /\
    heap w' !! df_clean = Some table /\
    frame_keeps cells table /\
    pd.frame_shape table = (3, 3).
Proof.
  destruct (handle_missing_values_keeps_data battery_feature_mapper.init
              1%positive "median" world0 cells)
    as (df_clean & w' & table & Hrun & Htable & Hkeeps & _ & Hshape).
  - reflexivity.
  - discriminate.
  - by exists df_clean, w', table.
Defined.

Section GapFacts.
Context {N : Numeric}.

Lemma series_notna_ffill_gap (s : pd.Series) i :
  pd.series_notna (pd.series_fill (@pd.ffill) s) !! i = Some false ->
  forall j, j <= i -> pd.series_notna s !! j = Some false.
Proof.
  destruct s as [d|d]; cbn; rewrite list_lookup_fmap;
    intros Hi j Hj; rewrite list_lookup_fmap.
  all: destruct (pd.ffill d !! i) as [[x|]|] eqn:Hd; try done.
  all: by rewrite (ffill_gap d i Hd j Hj).
Qed.

Lemma series_notna_bfill_gap (s : pd.Series) i :
  pd.series_notna (pd.series_fill (@pd.bfill) s) !! i = Some false ->
  forall j, i <= j < pd.series_len s -> pd.series_notna s !! j = Some false.
Proof.
  destruct s as [d|d]; cbn; rewrite list_lookup_fmap;
    intros Hi j Hj; rewrite list_lookup_fmap.
  all: destruct (pd.bfill d !! i) as [[x|]|] eqn:Hd; try done.
  all: by rewrite (bfill_gap d i Hd j Hj).
Qed.
End GapFacts.

(** X15: after "forward_fill" a cell is still missing only when every cell
    above it in its column was missing in the input, and after
    "backward_fill" only when every cell below it was. *)
Theorem handle_missing_values_fill_gaps {N : Numeric}
    (self : BatteryFeatureMapper) (df : ref) (w : world)
    (frame : pd.DataFrame) :
  heap w !! df = Some frame ->
  (exists df_clean w' table,
     handle_missing_values self df "forward_fill" w = (Ok df_clean, w') /\
     heap w' !! df_clean = Some table /\
     Forall2 (fun item item' =>
                item.1 = item'.1 /\
                forall i, pd.series_notna item'.2 !! i = Some false ->
                  forall j, j <= i -> pd.series_notna item.2 !! j = Some false)
       frame table) /\
  (exists df_clean w' table,
     handle_missing_values self df "backward_fill" w = (Ok df_clean, w') /\
     heap w' !! df_clean = Some table /\
     Forall2 (fun item item' =>
                item.1 = item'.1 /\
                forall i, pd.series_notna item'.2 !! i = Some false ->
                  forall j, i <= j < pd.series_len item.2 ->
                    pd.series_notna item.2 !! j = Some false)
       frame table).
Proof.
  intros Hdf. split; eexists _, _, _; split_and!.
  - by apply handle_missing_values_run.
  - apply lookup_insert_eq.
  - unfold outcome.cleaned. cbn [decide].
    rewrite decide_False, decide_False, decide_False, decide_True by done.
    unfold pd.frame_fill. apply Forall2_fmap_r, Forall_Forall2_diag,
      Forall_forall.
    intros item _. split; [done|]. apply series_notna_ffill_gap.
  - by apply handle_missing_values_run.
  - apply lookup_insert_eq.
  - unfold outcome.cleaned. cbn [decide].
    rewrite decide_False, decide_False, decide_False, decide_False,
      decide_True by done.
    unfold pd.frame_fill. apply Forall2_fmap_r, Forall_Forall2_diag,
      Forall_forall.
    intros item _. split; [done|]. apply series_notna_bfill_gap.
Qed.

Lemma handle_missing_values_fill_gaps_witness :
  exists df_clean w' table,
    handle_missing_values battery_feature_mapper.init 1%positive
      "forward_fill" world0 = (Ok df_clean, w') /\
    heap w' !! df_clean = Some table.
Proof.
  destruct (handle_missing_values_fill_gaps battery_feature_mapper.init
              1%positive world0 cells eq_refl)
    as [(df_clean & w' & table & Hrun & Htable & _) _].
  by exists df_clean, w', table.
Defined.

Section MeanFacts.
Context {N : Numeric}.
Implicit Types (frame : pd.DataFrame).







End MeanFacts.



(** ** More on loading *)

Section LowerFacts.
Import os_path.
Local Open Scope Z_scope.

Lemma ascii_lower_dot a : ascii_lower a = "."%char <-> a = "."%char.
Proof.
  split; [|by intros ->].
  destruct a as [[] [] [] [] [] [] [] []]; vm_compute; congruence.
Qed.

Lemma ascii_lower_slash a : ascii_lower a = "/"%char <-> a = "/"%char.
Proof.
  split; [|by intros ->].
  destruct a as [[] [] [] [] [] [] [] []]; vm_compute; congruence.
Qed.

Lemma rfind_lower c s :
  (forall a, ascii_lower a = c <-> a = c) ->
  rfind c (lower s) = rfind c s.
Proof.
  intros Hc. induction s as [|a s IH]; [done|].
  cbn [lower rfind]. rewrite IH.
  destruct (0 <=? rfind c s); [done|].
  destruct (decide (a = c)) as [Ha|Ha].
  - by rewrite decide_True by (by apply Hc).
  - by rewrite decide_False by (by rewrite Hc).
Qed.

Lemma splitext_no_dot p :
  rfind "." p <= rfind "/" p -> splitext p = (p, "").
Proof.
  intros Hle. unfold splitext.
  by destruct (Z.ltb_spec (rfind "/" p) (rfind "." p)); [lia|].
Qed.

Lemma splitext_dotfile dir e :
  dir = "" \/ (exists d, dir = d +:+ "/") ->
  rfind "." e = -1 -> rfind "/" e = -1 ->
  splitext (dir +:+ String "." e) = (dir +:+ String "." e, "").
Proof.
  intros Hdir He1 He2. unfold splitext.
  assert (Hdot : rfind "." (dir +:+ String "." e)
                 = Z.of_nat (String.length dir)).
  { rewrite rfind_app. cbn [rfind]. rewrite He1.
    rewrite decide_True by done. cbn. lia. }
  assert (Hsep : rfind "/" (dir +:+ String "." e)
                 = Z.of_nat (String.length dir) - 1).
  { rewrite rfind_app. cbn [rfind]. rewrite He2.
    rewrite decide_False by done. cbn.
    destruct Hdir as [->|[d ->]]; [done|].
    rewrite rfind_app, length_app.
    replace (rfind "/" "/") with 0 by (by vm_compute).
    cbn. lia. }
  rewrite Hdot, Hsep.
  destruct (Z.ltb_spec (Z.of_nat (String.length dir) - 1)
              (Z.of_nat (String.length dir))); [|lia].
  by replace (Z.to_nat (Z.of_nat (String.length dir)
                        - (Z.of_nat (String.length dir) - 1 + 1))) with 0%nat
    by lia.
Qed.
End LowerFacts.

Section LoadFacts.
Context {N : Numeric} {R : Readers}.
Import os_path data_loader.

Lemma load_dataset_ext self file_path kw :
  load_dataset self file_path kw =
    let file_ext := lower (splitext file_path).2 in
    if decide (file_ext = ".csv") then read_csv file_path kw
    else if bool_decide (file_ext ∈ [".xlsx"; ".xls"]) then
      read_excel file_path kw
    else if decide (file_ext = ".parquet") then read_parquet file_path kw
    else if decide (file_ext = ".json") then read_json file_path kw
    else raise (ValueError ("Unsupported file format: " +:+ file_ext)).
Proof. done. Qed.

Lemma splitext_lower_ext stem c e :
  c <> "."%char -> c <> "/"%char ->
  lower e ∈ ["csv"; "xlsx"; "xls"; "parquet"; "json"] ->
  lower (splitext (stem +:+ String c (String "." e))).2
  = String "." (lower e).
Proof.
  intros Hc1 Hc2 He.
  assert (rfind "." e = (-1)%Z /\ rfind "/" e = (-1)%Z) as [He1 He2].
  { rewrite <- (rfind_lower "." e ascii_lower_dot),
            <- (rfind_lower "/" e ascii_lower_slash).
    rewrite !elem_of_cons, elem_of_nil in He.
    destruct He as [->|[->|[->|[->|[->|[]]]]]]; by vm_compute. }
  by rewrite splitext_suffix.
Qed.
End LoadFacts.

(** X17: [load_dataset] goes by the extension whatever its letter case: a
    path that ends, after a character of the file name, in a dot and csv,
    xlsx, xls, parquet or json in any case is handed to the reader of that
    format, with the path and the options as they were given. *)
Theorem load_dataset_dispatch {N : Numeric} {R : Readers}
    (self : data_loader.BatteryDataLoader) (stem : string) (c : ascii)
    (e : string) (kw : kwargs) :
  c <> "."%char -> c <> "/"%char ->
  let file_path := stem +:+ String c (String "." e) in
  (lower e = "csv" ->
     data_loader.load_dataset self file_path kw = read_csv file_path kw) /\
  (lower e = "xlsx" \/ lower e = "xls" ->
     data_loader.load_dataset self file_path kw = read_excel file_path kw) /\
  (lower e = "parquet" ->
     data_loader.load_dataset self file_path kw = read_parquet file_path kw) /\
  (lower e = "json" ->
     data_loader.load_dataset self file_path kw = read_json file_path kw).
Proof.
  intros Hc1 Hc2 file_path.
  assert (Hext : lower e ∈ ["csv"; "xlsx"; "xls"; "parquet"; "json"] ->
            data_loader.load_dataset self file_path kw =
              if decide (String "." (lower e) = ".csv") then
                read_csv file_path kw
              else if bool_decide (String "." (lower e) ∈ [".xlsx"; ".xls"])
              then read_excel file_path kw
              else if decide (String "." (lower e) = ".parquet") then
                read_parquet file_path kw
              else if decide (String "." (lower e) = ".json") then
                read_json file_path kw
              else raise (ValueError ("Unsupported file format: "
                                      +:+ String "." (lower e)))).
  { intros He. rewrite load_dataset_ext. unfold file_path.
    by rewrite splitext_lower_ext. }
  split_and!.
  - intros He. rewrite Hext by (rewrite He; by left). by rewrite He.
  - intros [He|He]; (rewrite Hext; [by rewrite He|]); rewrite He.
    + right. by left.
    + right. right. by left.
  - intros He. rewrite Hext; [by rewrite He|]. rewrite He.
    do 3 right. by left.
  - intros He. rewrite Hext; [by rewrite He|]. rewrite He.
    do 4 right. by left.
Qed.

Lemma load_dataset_dispatch_witness :
  data_loader.load_dataset (R:=no_files) data_loader.init "runs/Cell_01.CSV" ()
  = read_csv (Readers:=no_files) "runs/Cell_01.CSV" ().
Proof.
  destruct (load_dataset_dispatch (R:=no_files) data_loader.init "runs/Cell_0"
              "1"%char "CSV" ()) as (Hcsv & _);
    [discriminate | discriminate |].
  by apply Hcsv.
Defined.

(** X18: a path whose file name has no dot, or only the dot it begins with,
    has no extension for [load_dataset]: it raises the error for unsupported
    formats with an empty extension, also for a file called ".csv". *)
Theorem load_dataset_no_extension {N : Numeric} {R : Readers}
    (self : data_loader.BatteryDataLoader) (kw : kwargs) (w : world) :
  (forall file_path,
     (os_path.rfind "." file_path <= os_path.rfind "/" file_path)%Z ->
     data_loader.load_dataset self file_path kw w
     = (Raise (ValueError "Unsupported file format: "), w)) /\
  (forall dir e,
     dir = "" \/ (exists d, dir = d +:+ "/") ->
     os_path.rfind "." e = (-1)%Z -> os_path.rfind "/" e = (-1)%Z ->
     data_loader.load_dataset self (dir +:+ String "." e) kw w
     = (Raise (ValueError "Unsupported file format: "), w)).
Proof.
  split.
  - intros file_path Hle. rewrite load_dataset_ext.
    by rewrite splitext_no_dot.
  - intros dir e Hdir He1 He2. rewrite load_dataset_ext.
    by rewrite splitext_dotfile.
Qed.

Lemma load_dataset_no_extension_witness :
  data_loader.load_dataset (R:=no_files) data_loader.init "runs.d/cells" ()
    world0 = (Raise (ValueError "Unsupported file format: "), world0) /\
  data_loader.load_dataset (R:=no_files) data_loader.init "runs/.csv" ()
    world0 = (Raise (ValueError "Unsupported file format: "), world0).
Proof.
  destruct (load_dataset_no_extension (R:=no_files) data_loader.init ()
              world0) as [Hnone Hdot].
  split.
  - apply Hnone. by vm_compute.
  - apply (Hdot "runs/" "csv"); [right; by exists "runs" | done | done].
Defined.

(** ** Processing *)

Section ProcessFacts.
Context {E : Re} {N : Numeric} {R : Readers}.
Import outcome.

Lemma lbind_run {A B} (m : Loader A) (k : A -> Loader B) s :
  (m ≫= k) s =
    match m s with
    | (Ok a, s') => k a s'
    | (Raise e, s') => (Raise e, s')
    end.
Proof. done. Qed.

Lemma call_run {A} (m : Py A) h out r w' :
  m {| heap := h; stdout := [] |} = (r, w') ->
  call m {| objects := h; printed := out |}
  = (r, {| objects := heap w'; printed := out ++ (inr <$> stdout w') |}).
Proof. intros Hm. unfold call. cbn [objects printed]. by rewrite Hm. Qed.

Lemma columns_tolist_run df (frame : pd.DataFrame) w :
  heap w !! df = Some frame ->
  pdm.columns_tolist df w = (Ok (keys frame), w).
Proof.
  intros Hdf. unfold pdm.columns_tolist.
  by erewrite bind_ok by by apply deref_run.
Qed.

Lemma report_run l h out :
  data_loader_process.report l {| objects := h; printed := out |}
  = (Ok (), {| objects := h; printed := out ++ [inl l] |}).
Proof. done. Qed.

(** A call that reads the heap. *)
Ltac lread lem :=
  rewrite lbind_run;
  erewrite call_run by (apply lem; cbn [heap]; eassumption);
  cbn [heap stdout]; rewrite fmap_nil, app_nil_r.

Ltac lreport := rewrite lbind_run, report_run.

Lemma process_dataset_from_df_ok self df h out (frame : pd.DataFrame) mapping :
  h !! df = Some frame -> dict_wf frame ->
  find_matching_columns (data_loader.feature_mapper self) (keys frame)
    = Ok mapping ->
  let processed_df := fresh (dom h) in
  let table := extracted frame mapping in
  process_dataset_from_df self df {| objects := h; printed := out |} =
    (Ok {| raw_data := df;
           processed_data := processed_df;
           feature_mapping := mapping;
           available_features := keys mapping |},
     {| objects := <[processed_df := table]> h;
        printed :=
          out ++ [inl (OriginalShape (pd.frame_shape frame));
                  inl (OriginalColumns (keys frame));
                  inl (DetectedMapping mapping)]
              ++ (inr <$> missing_report (data_loader.feature_mapper self)
                            mapping)
              ++ [inl (ProcessedShape (pd.frame_shape table));
                  inl (AvailableFeatures (keys mapping))] |}).
Proof.
  intros Hdf Hwf Hfind processed_df table.
  pose proof (find_matching_columns_inv _ _ _ Hfind) as (Hk & _ & Hj).
  assert (Hall : forall col, col ∈ values mapping -> col ∈ keys frame).
  { intros c ([f c'] & -> & Hin)%list_elem_of_fmap. by apply (Hj f c'). }
  assert (Hkeys : keys table = keys mapping).
  { unfold table. by rewrite extracted_keys, filter_present_all. }
  unfold process_dataset_from_df.
  lread shape_run. lreport.
  lread columns_tolist_run. lreport.
  lread columns_tolist_run.
  rewrite lbind_run. erewrite call_run by reflexivity.
  cbn [heap stdout]. rewrite fmap_nil, app_nil_r, Hfind.
  lreport.
  rewrite lbind_run.
  erewrite call_run by (by apply extract_features_run).
  cbn [heap stdout]. fold processed_df.
  rewrite extract_into_wf by done. fold table.
  rewrite column_warnings_present by done. rewrite !app_nil_l.
  assert (Htable : forall o, ({| heap := <[processed_df := table]> h;
                                 stdout := o |} : world).(heap)
                             !! processed_df = Some table)
    by (intros; apply lookup_insert_eq).
  rewrite lbind_run. erewrite call_run by (apply shape_run, Htable).
  cbn [heap stdout]. rewrite fmap_nil, app_nil_r. lreport.
  rewrite lbind_run. erewrite call_run by (apply columns_tolist_run, Htable).
  cbn [heap stdout]. rewrite fmap_nil, app_nil_r. lreport.
  rewrite lbind_run. erewrite call_run by (apply columns_tolist_run, Htable).
  cbn [heap stdout]. rewrite fmap_nil, app_nil_r.
  rewrite Hkeys. cbn. by rewrite <- !app_assoc.
Qed.

Lemma process_dataset_from_df_raise self df h out (frame : pd.DataFrame) e :
  h !! df = Some frame ->
  find_matching_columns (data_loader.feature_mapper self) (keys frame)
    = Raise e ->
  process_dataset_from_df self df {| objects := h; printed := out |} =
    (Raise e,
     {| objects := h;
        printed := out ++ [inl (OriginalShape (pd.frame_shape frame));
                           inl (OriginalColumns (keys frame))] |}).
Proof.
  intros Hdf Hfind. unfold process_dataset_from_df.
  lread shape_run. lreport.
  lread columns_tolist_run. lreport.
  lread columns_tolist_run.
  rewrite lbind_run. erewrite call_run by reflexivity.
  cbn [heap stdout]. rewrite fmap_nil, app_nil_r, Hfind.
  by rewrite <- !app_assoc.
Qed.
End ProcessFacts.

(** X19: on a table with distinct labels whose columns the matcher maps,
    [process_dataset_from_df] returns the input reference as [raw_data], the
    mapping as [feature_mapping], and a new table as [processed_data] whose
    columns are the features of the mapping, each holding the cells of its
    source column; [available_features] lists those features in mapping
    order; the input table is unchanged, and the lines printed are the three
    about the input, the missing-features line if any, and the two about the
    result, without a column warning. *)
Theorem process_dataset_from_df_result {E : Re} {N : Numeric}
    (self : data_loader.BatteryDataLoader) (df : ref) (s : session)
    (frame : pd.DataFrame) (mapping : dict string) :
  objects s !! df = Some frame -> dict_wf frame ->
  find_matching_columns (data_loader.feature_mapper self) (keys frame)
    = Ok mapping ->
  exists result s' table,
    process_dataset_from_df self df s = (Ok result, s') /\
    raw_data result = df /\
    feature_mapping result = mapping /\
    available_features result = keys mapping /\
    objects s !! processed_data result = None /\
    objects s' !! processed_data result = Some table /\
    objects s' !! df = Some frame /\
    keys table = keys mapping /\
    (forall feature col, (feature, col) ∈ mapping ->
       is_Some (dict_get col frame) /\
       dict_get feature table = dict_get col frame) /\
    printed s' =
      printed s
      ++ [inl (OriginalShape (pd.frame_shape frame));
          inl (OriginalColumns (keys frame));
          inl (DetectedMapping mapping)]
      ++ (inr <$> outcome.missing_report (data_loader.feature_mapper self)
                    mapping)
      ++ [inl (ProcessedShape (pd.frame_shape table));
          inl (AvailableFeatures (keys mapping))].
Proof.
  intros Hdf Hwf Hfind. destruct s as [h out]. cbn [objects printed] in *.
  pose proof (find_matching_columns_inv _ _ _ Hfind) as (Hk & _ & Hj).
  assert (Hall : forall col, col ∈ values mapping -> col ∈ keys frame).
  { intros c ([f c'] & -> & Hin)%list_elem_of_fmap. by apply (Hj f c'). }
  eexists _, _, _. split_and!.
  - by apply process_dataset_from_df_ok.
  - done.
  - done.
  - done.
  - apply fresh_ref_None.
  - apply lookup_insert_eq.
  - cbn [objects]. rewrite lookup_insert_ne; [done|].
    intros Heq. by eapply fresh_ref_ne.
  - by rewrite extracted_keys, filter_present_all.
  - intros f c Hin. split.
    + destruct (Hj f c Hin) as [Hc%dict_mem_true _].
      unfold dict_mem in Hc. by destruct (dict_get c frame).
    + by apply extracted_lookup.
  - done.
Qed.

(** X20: when the matcher raises on the columns of the table,
    [process_dataset_from_df] raises the same exception after its first two
    lines, and the heap is as it was. *)
Theorem process_dataset_from_df_error {E : Re} {N : Numeric}
    (self : data_loader.BatteryDataLoader) (df : ref) (s : session)
    (frame : pd.DataFrame) (e : exn) :
  objects s !! df = Some frame ->
  find_matching_columns (data_loader.feature_mapper self) (keys frame)
    = Raise e ->
  exists s',
    process_dataset_from_df self df s = (Raise e, s') /\
    objects s' = objects s /\
    printed s' = printed s ++ [inl (OriginalShape (pd.frame_shape frame));
                               inl (OriginalColumns (keys frame))].
Proof.
  intros Hdf Hfind. destruct s as [h out]. cbn [objects printed] in *.
  eexists. split_and!; [by eapply process_dataset_from_df_raise | done..].
Qed.

(** X21: [process_dataset] is [load_dataset] followed by
    [process_dataset_from_df] on the table loaded; with an extension that is
    not supported it raises the error of [load_dataset] before it prints
    anything, and the heap is as it was. *)
Theorem process_dataset_composition {E : Re} {N : Numeric} {R : Readers}
    (self : data_loader.BatteryDataLoader) (file_path : string) (kw : kwargs) :
  process_dataset self file_path kw
  = (call (data_loader.load_dataset self file_path kw)
       ≫= process_dataset_from_df self) /\
  (forall s,
     lower (os_path.splitext file_path).2
       ∉ [".csv"; ".xlsx"; ".xls"; ".parquet"; ".json"] ->
     process_dataset self file_path kw s
     = (Raise (ValueError ("Unsupported file format: "
                           +:+ lower (os_path.splitext file_path).2)), s)).
Proof.
  split; [done|].
  intros [h out] Hext. unfold process_dataset.
  rewrite lbind_run. erewrite call_run; cycle 1.
  { rewrite load_dataset_ext. cbn zeta.
    rewrite !elem_of_cons, elem_of_nil in Hext.
    rewrite decide_False by intuition.
    rewrite bool_decide_eq_false_2
      by (rewrite !elem_of_cons, elem_of_nil; intuition).
    rewrite !decide_False by intuition. done. }
  cbn [heap stdout]. by rewrite fmap_nil, app_nil_r.
Qed.

Lemma process_dataset_from_df_result_witness :
  exists result s',
    process_dataset_from_df (E:=literal_re) data_loader.init
      1%positive session0 = (Ok result, s') /\
    raw_data result = 1%positive /\
    available_features result = ["capacity"; "voltage"] /\
    objects s' !! 1%positive = Some cells.
Proof.
  destruct (process_dataset_from_df_result (E:=literal_re)
              data_loader.init 1%positive session0 cells
              [("capacity", "Cap_Ah"); ("voltage", "Voltage_V")])
    as (result & s' & table & Hrun & Hraw & _ & Havail & _ & _ & Hdf & _).
  - reflexivity.
  - apply (bool_decide_unpack _). vm_compute. exact I.
  - vm_compute. reflexivity.
  - by exists result, s'.
Defined.

Lemma process_dataset_from_df_error_witness :
  exists s',
    process_dataset_from_df (E:=literal_re) loader_bad_pattern
      1%positive session0 = (Raise (re_error "n(o"), s') /\
    objects s' = objects session0.
Proof.
  destruct (process_dataset_from_df_error (E:=literal_re)
              loader_bad_pattern 1%positive session0 cells (re_error "n(o"))
    as (s' & Hrun & Hobjects & _).
  - reflexivity.
  - vm_compute. reflexivity.
  - by exists s'.
Defined.

Lemma process_dataset_composition_witness :
  process_dataset (E:=literal_re) (R:=no_files) data_loader.init
    "data/cells.tsv" () session0
  = (Raise (ValueError "Unsupported file format: .tsv"), session0).
Proof.
  apply (proj2 (process_dataset_composition (E:=literal_re) (R:=no_files)
                  data_loader.init "data/cells.tsv" ()) session0).
  apply (bool_decide_unpack _). vm_compute. exact I.
Defined.
